(** * Cost accounting, response scanning and task tracking of the
      Gemini image generator

    A shallow embedding of [gemini_image_generator.py], [app.py] and
    [web_api.py].  Python [float] is IEEE-754 binary64 with
    round-to-nearest-even: it is modelled by the executable specification
    [spec_float] of the Standard Library, so every sum and product below
    rounds exactly where the interpreter rounds. *)

From Stdlib Require Import ZArith String Ascii List Bool Lia QArith Qabs.
From Stdlib Require Import Strings.Byte.
From Stdlib Require Import SpecFloat.
Import ListNotations.

Local Open Scope Z_scope.
Local Open Scope string_scope.
Local Open Scope list_scope.

(** ** The Python values the program computes with *)

Module Py.

(** *** binary64 *)

Definition prec : Z := 53.
Definition emax : Z := 1024.

Definition float := spec_float.

Definition fadd : float -> float -> float := SFadd prec emax.
Definition fsub : float -> float -> float := SFsub prec emax.
Definition fmul : float -> float -> float := SFmul prec emax.
Definition fdiv : float -> float -> float := SFdiv prec emax.
Definition fltb : float -> float -> bool := SFltb.

(** [0.0], also what the integer [0] becomes when it meets a float. *)
Definition fzero : float := S754_zero false.

(** An integer as the exact (not yet rounded) pair mantissa/exponent. *)
Definition exact_int (n : Z) : float :=
  match n with
  | Z0 => S754_zero false
  | Zpos p => S754_finite false p 0
  | Zneg p => S754_finite true p 0
  end.

(** [float(n)]: the integer rounded to the nearest binary64. *)
Definition of_int (n : Z) : float := binary_normalize prec emax n 0 false.

(** [a / b] on two integers: the correctly rounded quotient. *)
Definition int_truediv (a b : Z) : float := fdiv (exact_int a) (exact_int b).

(** A decimal literal [n / 10^k] of the source text denotes the binary64
    nearest to it, which is the correctly rounded quotient. *)
Definition decimal (n : Z) (k : nat) : float := int_truediv n (10 ^ Z.of_nat k).

(** The sign bit is clear (NaN counts as unsigned). *)
Definition nonneg (x : float) : bool :=
  match x with
  | S754_zero s | S754_infinity s | S754_finite s _ _ => negb s
  | S754_nan => true
  end.

(** The exact rational value of a finite float. *)
Definition to_Q (x : float) : option Q :=
  match x with
  | S754_zero _ => Some 0%Q
  | S754_finite s m e =>
      let v := match e with
               | Zneg p => Qmake (Zpos m) (2 ^ p)
               | _ => inject_Z (Zpos m * 2 ^ e)
               end in
      Some (if s then Qopp v else v)
  | _ => None
  end.

(** [x] printed with as many decimals as [d] shows gives [d]: it lies
    within [tol] (half a unit of the last decimal shown) of [d]. *)
Definition approx (x : float) (d tol : Q) : bool :=
  match to_Q x with
  | Some q => Qle_bool (Qabs (q - d)) tol
  | None => false
  end.

(** *** Exceptions and results *)

Inductive exn_class :=
| ValueError | RuntimeError | KeyError | FileNotFoundError
| PermissionError | OtherError.

(** An exception: its class and [str(e)]. *)
Record exn := Exn { exn_type : exn_class; exn_str : string }.

Inductive result (A : Type) :=
| Ok (a : A)
| Raise (e : exn).
Arguments Ok {A} a.
Arguments Raise {A} e.

(** [except Exception]: every class above derives from [Exception]. *)

(** *** Dictionaries keyed by strings, in insertion order *)

Definition dict (V : Type) := list (string * V).

Fixpoint dict_get {V} (d : dict V) (k : string) : option V :=
  match d with
  | [] => None
  | (k', v) :: d' => if String.eqb k k' then Some v else dict_get d' k
  end.

Definition dict_mem {V} (d : dict V) (k : string) : bool :=
  match dict_get d k with Some _ => true | None => false end.

Fixpoint dict_set {V} (d : dict V) (k : string) (v : V) : dict V :=
  match d with
  | [] => [(k, v)]
  | (k', v') :: d' =>
      if String.eqb k k' then (k, v) :: d' else (k', v') :: dict_set d' k v
  end.

Fixpoint dict_del {V} (d : dict V) (k : string) : dict V :=
  match d with
  | [] => []
  | (k', v') :: d' =>
      if String.eqb k k' then d' else (k', v') :: dict_del d' k
  end.

(** *** Strings *)

(** [s.startswith(p)] *)
Definition startswith (s p : string) : bool := String.prefix p s.

(** Truthiness of a string, and of an optional string ([None] is falsy). *)
Definition truthy (s : string) : bool := negb (String.eqb s "").
Definition truthy_opt (s : option string) : bool :=
  match s with Some s => truthy s | None => false end.

(** [s.strip()]: the ASCII white space of [str.isspace]. *)
Definition isspace (c : ascii) : bool :=
  let n := nat_of_ascii c in
  ((9 <=? n) && (n <=? 13) || (28 <=? n) && (n <=? 32))%nat.

Fixpoint lstrip (s : string) : string :=
  match s with
  | String c s' => if isspace c then lstrip s' else s
  | EmptyString => EmptyString
  end.

Fixpoint rstrip (s : string) : string :=
  match s with
  | String c s' =>
      match rstrip s' with
      | EmptyString => if isspace c then EmptyString else String c EmptyString
      | r => String c r
      end
  | EmptyString => EmptyString
  end.

Definition strip (s : string) : string := rstrip (lstrip s).

(** The first element on which [f] answers, as a loop that returns from
    inside its body does. *)
Fixpoint first_some {A B} (f : A -> option B) (l : list A) : option B :=
  match l with
  | [] => None
  | a :: l' => match f a with Some b => Some b | None => first_some f l' end
  end.

End Py.
Import Py.

(** ** The operating system as the program sees it *)

Module Os.

Definition bytes := list byte.

(** Files by path, and the paths the process may neither open for
    writing nor unlink (a read-only or busy file). *)
Record FileSystem := {
  files : dict bytes;
  locked : list string
}.

Definition is_locked (fs : FileSystem) (path : string) : bool :=
  existsb (String.eqb path) (locked fs).

(** [os.path.exists] *)
Definition path_exists (fs : FileSystem) (path : string) : bool :=
  dict_mem (files fs) path.

(** [open(path, 'rb').read()] *)
Definition read_file (fs : FileSystem) (path : string) : result bytes :=
  match dict_get (files fs) path with
  | Some b => Ok b
  | None =>
      Raise (Exn FileNotFoundError
                 ("[Errno 2] No such file or directory: '" ++ path ++ "'"))
  end.

(** [with open(path, 'wb') as f: f.write(data)] *)
Definition write_file (fs : FileSystem) (path : string) (data : bytes)
  : result FileSystem :=
  if is_locked fs path then
    Raise (Exn PermissionError
               ("[Errno 13] Permission denied: '" ++ path ++ "'"))
  else Ok {| files := dict_set (files fs) path data; locked := locked fs |}.

(** [os.remove] and [os.unlink] *)
Definition remove (fs : FileSystem) (path : string) : result FileSystem :=
  if negb (path_exists fs path) then
    Raise (Exn FileNotFoundError
               ("[Errno 2] No such file or directory: '" ++ path ++ "'"))
  else if is_locked fs path then
    Raise (Exn PermissionError
               ("[Errno 13] Permission denied: '" ++ path ++ "'"))
  else Ok {| files := dict_del (files fs) path; locked := locked fs |}.

(** [os.path.join] of a folder and a file name *)
Definition path_join (folder file : string) : string :=
  (folder ++ "/" ++ file)%string.

End Os.
Import Os.

(** ** The hosted endpoint and the libraries outside the repository *)

Module Api.

(** One element of the [contents] sent to the endpoint. *)
Inductive ContentItem :=
| ItemText (s : string)
| ItemBytes (data : bytes) (mime_type : string).

(** [part.inline_data.data] is either [bytes] or, from older clients, a
    base64 [str]. *)
Inductive InlineData :=
| DataBytes (b : bytes)
| DataStr (s : string).

Definition data_len (d : InlineData) : nat :=
  match d with
  | DataBytes b => List.length b
  | DataStr s => String.length s
  end.

Record Blob := { mime_type : string; data : InlineData }.
Record Part := { text : option string; inline_data : option Blob }.
Record Candidate := { parts : list Part }.
Record Response := { candidates : list Candidate }.

(** [client.models.generate_content(model=..., contents=...)]: it raises,
    answers nothing, or answers a response. *)
Definition Client := string -> list ContentItem -> result (option Response).

Record Externals := {
  (** [genai.Client(api_key=...)] *)
  genai_Client : string -> Client;
  (** [base64.b64decode]; [None] when it raises *)
  b64decode : string -> option bytes;
  (** [Image.open(...).format]; [None] when opening raises *)
  image_format : bytes -> option string;
  (** [werkzeug.utils.secure_filename] *)
  secure_filename : string -> string;
  (** the n-th [str(uuid.uuid4())] of the process *)
  uuid4 : nat -> string;
  (** the name of the n-th [NamedTemporaryFile(suffix='.png')] *)
  temp_name : nat -> string
}.

End Api.
Import Api.

(** ** gemini_image_generator.py *)

Module Gen.

Record Pricing := {
  input_cost_per_1k_chars : float;
  output_cost_per_image : float
}.

Record ModelInfo := {
  name : string;
  description : string;
  features : list string;
  status : string;
  pricing : Pricing
}.

Definition AVAILABLE_MODELS : dict ModelInfo :=
  [ ("gemini-2.5-flash-image-preview",
     {| name := "Gemini 2.5 Flash Image (Nano Banana)";
        description := "State-of-the-art image generation and editing model with superior capabilities";
        features := ["Natural language editing"; "Character consistency";
                     "Image blending"; "1024px resolution"];
        status := "Latest (Recommended)";
        pricing := {| input_cost_per_1k_chars := decimal 25 5;          (* 0.00025 *)
                      output_cost_per_image := decimal 2734375 9 |} |}); (* 0.002734375 *)
    ("gemini-2.0-flash-preview-image-generation",
     {| name := "Gemini 2.0 Flash Image";
        description := "Previous generation image model";
        features := ["Basic image generation"; "Text-to-image"];
        status := "Deprecated (Sept 26, 2025)";
        pricing := {| input_cost_per_1k_chars := decimal 25 5;
                      output_cost_per_image := decimal 2734375 9 |} |}) ].

(** The dictionary [calculate_cost] returns. *)
Record CostBreakdown := {
  input_text_cost : float;
  input_image_cost : float;
  output_image_cost : float;
  total_cost : float;
  input_chars : nat
}.

(** [self.AVAILABLE_MODELS[self.model]]: a missing key raises. *)
Definition model_entry (model : string) : result ModelInfo :=
  match dict_get AVAILABLE_MODELS model with
  | Some info => Ok info
  | None => Raise (Exn KeyError ("'" ++ model ++ "'"))
  end.

(** [calculate_cost(self, prompt, has_input_image)], [self] being read
    for its [model] only. *)
Definition calculate_cost (model : string) (prompt : string)
           (has_input_image : bool) : result CostBreakdown :=
  match model_entry model with
  | Raise e => Raise e
  | Ok info =>
      let pricing := pricing info in
      let input_chars := String.length prompt in
      let input_cost :=
        fmul (int_truediv (Z.of_nat input_chars) 1000)
             (input_cost_per_1k_chars pricing) in
      let output_cost := output_cost_per_image pricing in
      let input_image_cost :=
        if has_input_image then output_cost_per_image pricing else fzero in
      let total := fadd (fadd input_cost output_cost) input_image_cost in
      Ok {| input_text_cost := input_cost;
            input_image_cost := input_image_cost;
            output_image_cost := output_cost;
            total_cost := total;
            input_chars := input_chars |}
  end.

(** *** The generator object and the world around it *)

(** [self.client], [self.model], [self.total_cost] *)
Record Generator := {
  self_client : Client;
  self_model : string;
  self_total_cost : float
}.

(** The file system, the process environment and the requests that
    reached the endpoint so far (most recent last). *)
Record World := {
  fs : FileSystem;
  GEMINI_API_KEY : option string;
  sent : list (string * list ContentItem)
}.

Definition with_fs (w : World) (fs' : FileSystem) : World :=
  {| fs := fs'; GEMINI_API_KEY := GEMINI_API_KEY w; sent := sent w |}.

Definition with_sent (w : World) (m : string) (c : list ContentItem) : World :=
  {| fs := fs w; GEMINI_API_KEY := GEMINI_API_KEY w;
     sent := sent w ++ [(m, c)] |}.

Definition add_cost (g : Generator) (c : float) : Generator :=
  {| self_client := self_client g; self_model := self_model g;
     self_total_cost := fadd (self_total_cost g) c |}.

Definition set_model (g : Generator) (m : string) : Generator :=
  {| self_client := self_client g; self_model := m;
     self_total_cost := self_total_cost g |}.

Definition set_total_cost (g : Generator) (c : float) : Generator :=
  {| self_client := self_client g; self_model := self_model g;
     self_total_cost := c |}.

Section WithExternals.
Variable E : Externals.

(** [list(self.AVAILABLE_MODELS.keys())] as [str] prints it *)
Definition model_keys_repr : string :=
  "['gemini-2.5-flash-image-preview', 'gemini-2.0-flash-preview-image-generation']".

(** [GeminiImageGenerator.__init__(api_key, model)] *)
Definition __init__ (w : World) (api_key : option string) (model : string)
  : result Generator :=
  let api_key := if truthy_opt api_key then api_key else GEMINI_API_KEY w in
  match api_key with
  | Some key =>
      if negb (truthy key) then
        Raise (Exn ValueError "API key is required. Set GEMINI_API_KEY environment variable or pass api_key parameter")
      else if negb (dict_mem AVAILABLE_MODELS model) then
        Raise (Exn ValueError ("Model '" ++ model ++
                 "' not supported. Available models: " ++ model_keys_repr))
      else Ok {| self_client := genai_Client E key;
                 self_model := model;
                 self_total_cost := fzero |}
  | None =>
      Raise (Exn ValueError "API key is required. Set GEMINI_API_KEY environment variable or pass api_key parameter")
  end.

(** [format_map.get(img.format, 'image/jpeg')] *)
Definition format_map : dict string :=
  [("JPEG", "image/jpeg"); ("PNG", "image/png"); ("GIF", "image/gif");
   ("BMP", "image/bmp"); ("WEBP", "image/webp")].

(** [load_image(self, image_path)] *)
Definition load_image (w : World) (image_path : string)
  : result (bytes * string) :=
  if negb (path_exists (fs w) image_path) then
    Raise (Exn FileNotFoundError ("Image file not found: " ++ image_path))
  else
    match read_file (fs w) image_path with
    | Raise e => Raise e
    | Ok content =>
        let mime_type :=
          match image_format E content with
          | Some fmt =>
              match dict_get format_map fmt with
              | Some m => m
              | None => "image/jpeg"
              end
          | None => "image/jpeg"
          end in
        Ok (content, mime_type)
    end.

(** The body of the two nested [for] loops for one part: the bytes to
    save when the part qualifies, [None] when the loop moves on. *)
Definition part_image (part : Part) : option bytes :=
  match inline_data part with
  | Some blob =>
      if startswith (mime_type blob) "image/"
         && (1000 <? data_len (data blob))%nat
      then match data blob with
           | DataBytes b => Some b
           | DataStr s => b64decode E s
           end
      else None
  | None => None
  end.

Definition first_image (response : Response) : option bytes :=
  first_some (fun candidate => first_some part_image (parts candidate))
             (candidates response).

(** The [try] block from the call of the endpoint on, which the two
    generating methods repeat word for word. *)
Definition request_and_save (g : Generator) (w : World)
           (contents : list ContentItem) (output_path : string)
  : result string * World :=
  let w := with_sent w (self_model g) contents in
  match self_client g (self_model g) contents with
  | Raise e => (Raise e, w)
  | Ok None =>
      (Raise (Exn ValueError "No response received from Gemini API"), w)
  | Ok (Some response) =>
      match candidates response with
      | [] => (Raise (Exn ValueError "No candidates in response"), w)
      | _ :: _ =>
          match first_image response with
          | Some image_data =>
              match write_file (fs w) output_path image_data with
              | Ok fs' => (Ok output_path, with_fs w fs')
              | Raise e => (Raise e, w)
              end
          | None =>
              (Raise (Exn ValueError "No image generated in response"), w)
          end
      end
  end.

(** [except Exception as e: raise RuntimeError(...)] *)
Definition wrap_failure {A} (r : result A) : result A :=
  match r with
  | Ok a => Ok a
  | Raise e =>
      Raise (Exn RuntimeError ("Failed to generate image: " ++ exn_str e))
  end.

(** [generate_image_from_prompt(self, prompt, output_path)].  What it
    prints is left out. *)
Definition generate_image_from_prompt (g : Generator) (w : World)
           (prompt output_path : string)
  : result string * Generator * World :=
  match calculate_cost (self_model g) prompt false with
  | Raise e => (Raise e, g, w)
  | Ok cost_info =>
      let g := add_cost g (total_cost cost_info) in
      let '(r, w) := request_and_save g w [ItemText prompt] output_path in
      (wrap_failure r, g, w)
  end.

(** [generate_image_with_input(self, input_image_path, prompt, output_path)] *)
Definition generate_image_with_input (g : Generator) (w : World)
           (input_image_path prompt output_path : string)
  : result string * Generator * World :=
  match calculate_cost (self_model g) prompt true with
  | Raise e => (Raise e, g, w)
  | Ok cost_info =>
      let g := add_cost g (total_cost cost_info) in
      match load_image w input_image_path with
      | Raise e => (wrap_failure (Raise e), g, w)
      | Ok (image_data, mime_type) =>
          let contents := [ItemBytes image_data mime_type; ItemText prompt] in
          let '(r, w) := request_and_save g w contents output_path in
          (wrap_failure r, g, w)
      end
  end.

End WithExternals.

End Gen.

(** ** app.py: one generator for the whole process *)

Module App.
Import Gen.

(** The process: the global [generator], the world, and how many
    temporary names were drawn so far. *)
Record Server := {
  generator : option Generator;
  world : World;
  draws : nat
}.

Record Upload := { filename : string; content : bytes }.

(** What an endpoint answers: [jsonify(...)] and its status code.  The
    image travels base64-encoded in the source; the bytes stand for it. *)
Inductive Reply :=
| Generated (image : bytes) (cost_info : CostBreakdown) (session_total : float)
| ResetDone (session_total : float)
| Failure (code : nat) (error : string).

Definition default_model : string := "gemini-2.5-flash-image-preview".

Definition get_default (d : dict string) (k default : string) : string :=
  match dict_get d k with Some v => v | None => default end.

Section WithExternals.
Variable E : Externals.

(** [init_generator()] *)
Definition init_generator (s : Server) : bool * Server :=
  let api_key := GEMINI_API_KEY (world s) in
  if negb (truthy_opt api_key) then (false, s)
  else match __init__ E (world s) api_key default_model with
       | Ok g => (true, {| generator := Some g; world := world s;
                           draws := draws s |})
       | Raise _ => (false, s)
       end.

(** [if not generator: if not init_generator(): ...] *)
Definition ensure_generator (s : Server) : option Generator * Server :=
  match generator s with
  | Some g => (Some g, s)
  | None =>
      let '(ok, s') := init_generator s in
      (if ok then generator s' else None, s')
  end.

Definition put (s : Server) (g : Generator) (w : World) (n : nat) : Server :=
  {| generator := Some g; world := w; draws := n |}.

(** [if generator.model != model: generator.model = model] *)
Definition update_model (g : Generator) (model : string) : Generator :=
  if negb (String.eqb (self_model g) model) then set_model g model else g.

(** [NamedTemporaryFile(suffix='.png', delete=False)]: an empty file
    under a fresh name. *)
Definition NamedTemporaryFile (w : World) (n : nat) : result (string * World) :=
  let tmp := temp_name E n in
  match write_file (fs w) tmp [] with
  | Ok fs' => Ok (tmp, with_fs w fs')
  | Raise e => Raise e
  end.

(** [generate_image()], the handler of [POST /api/generate]; [body] is
    [request.get_json()]. *)
Definition generate_image (s : Server) (body : result (dict string))
  : Reply * Server :=
  match ensure_generator s with
  | (None, s) =>
      (Failure 500 "Generator not initialized. Check GEMINI_API_KEY", s)
  | (Some g, s) =>
      match body with
      | Raise e => (Failure 500 (exn_str e), s)
      | Ok data =>
          let prompt := strip (get_default data "prompt" "") in
          let model := get_default data "model" default_model in
          if negb (truthy prompt) then (Failure 400 "Prompt is required", s)
          else
            let g := update_model g model in
            match calculate_cost (self_model g) prompt false with
            | Raise e => (Failure 500 (exn_str e), put s g (world s) (draws s))
            | Ok cost_info =>
                match NamedTemporaryFile (world s) (draws s) with
                | Raise e =>
                    (Failure 500 (exn_str e), put s g (world s) (draws s))
                | Ok (tmp_file, w) =>
                    let n := S (draws s) in
                    match generate_image_from_prompt E g w prompt tmp_file with
                    | (Raise e, g, w) => (Failure 500 (exn_str e), put s g w n)
                    | (Ok output_path, g, w) =>
                        match read_file (fs w) output_path with
                        | Raise e => (Failure 500 (exn_str e), put s g w n)
                        | Ok image_data =>
                            match remove (fs w) output_path with
                            | Raise e => (Failure 500 (exn_str e), put s g w n)
                            | Ok fs' =>
                                let g := add_cost g (total_cost cost_info) in
                                (Generated image_data cost_info (self_total_cost g),
                                 put s g (with_fs w fs') n)
                            end
                        end
                    end
                end
            end
      end
  end.

(** [generate_with_input()], the handler of
    [POST /api/generate_with_input]; [form] and [files] are
    [request.form] and [request.files]. *)
Definition generate_with_input (s : Server) (form : dict string)
           (files : dict Upload) : Reply * Server :=
  match ensure_generator s with
  | (None, s) =>
      (Failure 500 "Generator not initialized. Check GEMINI_API_KEY", s)
  | (Some g, s) =>
      let prompt := strip (get_default form "prompt" "") in
      let model := get_default form "model" default_model in
      if negb (truthy prompt) then (Failure 400 "Prompt is required", s)
      else
        match dict_get files "image" with
        | None => (Failure 400 "Input image is required", s)
        | Some file =>
            if String.eqb (filename file) "" then
              (Failure 400 "No file selected", s)
            else
              let g := update_model g model in
              match calculate_cost (self_model g) prompt true with
              | Raise e =>
                  (Failure 500 (exn_str e), put s g (world s) (draws s))
              | Ok cost_info =>
                  match NamedTemporaryFile (world s) (draws s) with
                  | Raise e =>
                      (Failure 500 (exn_str e), put s g (world s) (draws s))
                  | Ok (input_tmp, w) =>
                      let n := S (draws s) in
                      (* file.save(input_tmp.name) *)
                      match write_file (fs w) input_tmp (content file) with
                      | Raise e => (Failure 500 (exn_str e), put s g w n)
                      | Ok fs1 =>
                          let w := with_fs w fs1 in
                          match NamedTemporaryFile w n with
                          | Raise e => (Failure 500 (exn_str e), put s g w n)
                          | Ok (output_tmp, w) =>
                              let n := S n in
                              match generate_image_with_input
                                      E g w input_tmp prompt output_tmp with
                              | (Raise e, g, w) =>
                                  (Failure 500 (exn_str e), put s g w n)
                              | (Ok output_path, g, w) =>
                                  match read_file (fs w) output_path with
                                  | Raise e =>
                                      (Failure 500 (exn_str e), put s g w n)
                                  | Ok image_data =>
                                      match remove (fs w) input_tmp with
                                      | Raise e =>
                                          (Failure 500 (exn_str e), put s g w n)
                                      | Ok fs2 =>
                                          match remove fs2 output_path with
                                          | Raise e =>
                                              (Failure 500 (exn_str e),
                                               put s g (with_fs w fs2) n)
                                          | Ok fs3 =>
                                              let g := add_cost g (total_cost cost_info) in
                                              (Generated image_data cost_info
                                                         (self_total_cost g),
                                               put s g (with_fs w fs3) n)
                                          end
                                      end
                                  end
                              end
                          end
                      end
                  end
              end
        end
  end.

(** [reset_cost()], the handler of [/api/reset_cost] *)
Definition reset_cost (s : Server) : Reply * Server :=
  match generator s with
  | Some g =>
      (ResetDone fzero,
       {| generator := Some (set_total_cost g fzero); world := world s;
          draws := draws s |})
  | None => (Failure 500 "Generator not initialized", s)
  end.

End WithExternals.

End App.

(** ** web_api.py: tasks run by background workers *)

Module WebApi.
Import Gen.

(** A [GenerationTask] object.  [created_at] and [finished_at] are
    attributes the object may lack ([hasattr]); [None] says it does. *)
Record GenerationTask := {
  task_id : string;
  status : string;
  progress : Z;
  message : string;
  result_path : option string;
  error : option string;
  created_at : option float;
  finished_at : option float
}.

(** [GenerationTask.__init__(task_id)] *)
Definition GenerationTask__init__ (task_id : string) : GenerationTask :=
  {| task_id := task_id;
     status := "pending";
     progress := 0;
     message := "Task created";
     result_path := None;
     error := None;
     created_at := None;
     finished_at := None |}.

Definition set_status (t : GenerationTask) (v : string) :=
  {| task_id := task_id t; status := v; progress := progress t;
     message := message t; result_path := result_path t; error := error t;
     created_at := created_at t; finished_at := finished_at t |}.
Definition set_progress (t : GenerationTask) (v : Z) :=
  {| task_id := task_id t; status := status t; progress := v;
     message := message t; result_path := result_path t; error := error t;
     created_at := created_at t; finished_at := finished_at t |}.
Definition set_message (t : GenerationTask) (v : string) :=
  {| task_id := task_id t; status := status t; progress := progress t;
     message := v; result_path := result_path t; error := error t;
     created_at := created_at t; finished_at := finished_at t |}.
Definition set_result_path (t : GenerationTask) (v : string) :=
  {| task_id := task_id t; status := status t; progress := progress t;
     message := message t; result_path := Some v; error := error t;
     created_at := created_at t; finished_at := finished_at t |}.
Definition set_error (t : GenerationTask) (v : string) :=
  {| task_id := task_id t; status := status t; progress := progress t;
     message := message t; result_path := result_path t; error := Some v;
     created_at := created_at t; finished_at := finished_at t |}.
Definition set_finished_at (t : GenerationTask) (v : float) :=
  {| task_id := task_id t; status := status t; progress := progress t;
     message := message t; result_path := result_path t; error := error t;
     created_at := created_at t; finished_at := Some v |}.

(** A reference to a task object: its index in the heap. *)
Definition ref := nat.

(** The process.  Task objects live in [heap]; the registry
    [active_tasks] and a worker's argument hold references to them, so a
    write by the worker shows through the registry.  [status_log] records
    every assignment to a [status] attribute, oldest first. *)
Record State := {
  heap : list GenerationTask;
  active_tasks : dict ref;
  world : World;
  draws : nat;
  status_log : list (ref * string)
}.

Definition deref (st : State) (r : ref) : option GenerationTask :=
  nth_error (heap st) r.

(** [task.task_id] *)
Definition task_id_of (st : State) (r : ref) : string :=
  match deref st r with Some t => task_id t | None => "" end.

Fixpoint list_update {A} (l : list A) (i : nat) (f : A -> A) : list A :=
  match l, i with
  | [], _ => []
  | a :: l', O => f a :: l'
  | a :: l', S i' => a :: list_update l' i' f
  end.

(** An assignment to attributes of the object behind [r]. *)
Definition modify (st : State) (r : ref) (f : GenerationTask -> GenerationTask)
  : State :=
  {| heap := list_update (heap st) r f; active_tasks := active_tasks st;
     world := world st; draws := draws st; status_log := status_log st |}.

(** [task.status = v] *)
Definition assign_status (st : State) (r : ref) (v : string) : State :=
  {| heap := list_update (heap st) r (fun t => set_status t v);
     active_tasks := active_tasks st;
     world := world st; draws := draws st;
     status_log := status_log st ++ [(r, v)] |}.

Definition with_world (st : State) (w : World) : State :=
  {| heap := heap st; active_tasks := active_tasks st;
     world := w; draws := draws st; status_log := status_log st |}.

Definition with_active_tasks (st : State) (d : dict ref) : State :=
  {| heap := heap st; active_tasks := d;
     world := world st; draws := draws st; status_log := status_log st |}.

Definition UPLOAD_FOLDER : string := "uploads".
Definition OUTPUT_FOLDER : string := "outputs".

(** *** allowed_file *)

Definition ALLOWED_EXTENSIONS : list string :=
  ["png"; "jpg"; "jpeg"; "gif"; "bmp"; "tiff"].

(** ['.' in filename] *)
Fixpoint has_dot (s : string) : bool :=
  match s with
  | EmptyString => false
  | String c s' => Ascii.eqb c "."%char || has_dot s'
  end.

(** [filename.rsplit('.', 1)[1]]: what follows the last dot. *)
Fixpoint rsplit_dot_1 (s : string) : option string :=
  match s with
  | EmptyString => None
  | String c s' =>
      match rsplit_dot_1 s' with
      | Some ext => Some ext
      | None => if Ascii.eqb c "."%char then Some s' else None
      end
  end.

Definition lower_char (c : ascii) : ascii :=
  let n := nat_of_ascii c in
  if ((65 <=? n) && (n <=? 90))%nat then ascii_of_nat (n + 32) else c.

Fixpoint lower (s : string) : string :=
  match s with
  | EmptyString => EmptyString
  | String c s' => String (lower_char c) (lower s')
  end.

Definition allowed_file (filename : string) : bool :=
  has_dot filename
  && match rsplit_dot_1 filename with
     | Some ext => existsb (String.eqb (lower ext)) ALLOWED_EXTENSIONS
     | None => false
     end.

(** *** The request handler *)

Record Upload := { filename : string; content : bytes }.

(** [request]: JSON body or form fields, and the uploaded files. *)
Record Request := {
  is_json : bool;
  json : dict string;
  form : dict string;
  files : dict Upload
}.

Inductive Reply :=
| Started (task_id : string)
| Failure (code : nat) (error : string).

(** The arguments the handler gives the worker thread. *)
Record WorkerArgs := {
  arg_task : ref;
  arg_api_key : string;
  arg_model : string;
  arg_prompt : string;
  arg_input_file_path : option string
}.

Definition default_model : string := "gemini-2.5-flash-image-preview".

Definition get_model (d : dict string) : string :=
  match dict_get d "model" with Some m => m | None => default_model end.

Section WithExternals.
Variable E : Externals.

(** The [# Handle file upload] block: the path the upload was saved
    under, if it was, and the next unused draw. *)
Definition handle_upload (st : State) (files : dict Upload)
  : result (option string * State) :=
  match dict_get files "input_image" with
  | Some file =>
      (* [file] is as true as its [filename] *)
      if truthy (filename file) && truthy (filename file)
         && allowed_file (filename file)
      then
        let filename := secure_filename E (filename file) in
        let unique_filename := (uuid4 E (draws st) ++ "_" ++ filename)%string in
        let input_file_path := path_join UPLOAD_FOLDER unique_filename in
        match write_file (fs (world st)) input_file_path (content file) with
        | Raise e => Raise e
        | Ok fs' =>
            Ok (Some input_file_path,
                {| heap := heap st; active_tasks := active_tasks st;
                   world := with_fs (world st) fs';
                   draws := S (draws st); status_log := status_log st |})
        end
      else Ok (None, st)
  | None => Ok (None, st)
  end.

(** [generate_image()], the handler of [POST /api/generate].  The
    thread it starts is returned as the worker's arguments. *)
Definition generate_image (st : State) (request : Request)
  : Reply * State * option WorkerArgs :=
  let data := if is_json request then json request else form request in
  let model := get_model data in
  match dict_get data "api_key", dict_get data "prompt" with
  | None, _ => (Failure 400 "API key is required", st, None)
  | Some api_key, prompt =>
      if negb (truthy api_key) then
        (Failure 400 "API key is required", st, None)
      else
        match prompt with
        | None => (Failure 400 "Prompt is required", st, None)
        | Some prompt =>
            if negb (truthy prompt) then
              (Failure 400 "Prompt is required", st, None)
            else
              match handle_upload st (files request) with
              | Raise e => (Failure 500 (exn_str e), st, None)
              | Ok (input_file_path, st) =>
                  let task_id := uuid4 E (draws st) in
                  let task := GenerationTask__init__ task_id in
                  let r := List.length (heap st) in
                  let st :=
                    {| heap := heap st ++ [task];
                       active_tasks := dict_set (active_tasks st) task_id r;
                       world := world st;
                       draws := S (draws st);
                       status_log := status_log st |} in
                  (Started task_id, st,
                   Some {| arg_task := r; arg_api_key := api_key;
                           arg_model := model; arg_prompt := prompt;
                           arg_input_file_path := input_file_path |})
              end
        end
  end.

(** *** The background worker *)

(** [if input_file_path and os.path.exists(input_file_path)] *)
Definition input_present (st : State) (input_file_path : option string) : bool :=
  match input_file_path with
  | Some p => truthy p && path_exists (fs (world st)) p
  | None => false
  end.

(** [if input_file_path and os.path.exists(...): os.remove(...)] *)
Definition remove_input (st : State) (input_file_path : option string)
  : result State :=
  match input_file_path with
  | Some p =>
      if input_present st input_file_path then
        match remove (fs (world st)) p with
        | Ok fs' => Ok (with_world st (with_fs (world st) fs'))
        | Raise e => Raise e
        end
      else Ok st
  | None => Ok st
  end.

(** The [try] block of [generate_image_background]: the state it
    reached, and the exception that ended it, if one did. *)
Definition worker_try (st : State) (task : ref)
           (api_key model prompt : string) (input_file_path : option string)
  : State * option exn :=
  let st := assign_status st task "initializing" in
  let st := modify st task (fun t => set_progress t 10) in
  let st := modify st task (fun t => set_message t "Initializing generator...") in
  match __init__ E (world st) (Some api_key) model with
  | Raise e => (st, Some e)
  | Ok generator =>
      let st := assign_status st task "generating" in
      let st := modify st task (fun t => set_progress t 30) in
      let st := modify st task (fun t => set_message t "Generating image...") in
      let output_filename :=
        ("generated_" ++ task_id_of st task ++ ".png")%string in
      let output_path := path_join OUTPUT_FOLDER output_filename in
      let '(r, st) :=
        match input_file_path with
        | Some p =>
            if input_present st input_file_path then
              let st := modify st task (fun t =>
                          set_message t "Generating image with input...") in
              let '(r, _, w) :=
                generate_image_with_input E generator (world st)
                                          p prompt output_path in
              (r, with_world st w)
            else
              let st := modify st task (fun t =>
                          set_message t "Generating image from prompt...") in
              let '(r, _, w) :=
                generate_image_from_prompt E generator (world st)
                                           prompt output_path in
              (r, with_world st w)
        | None =>
            let st := modify st task (fun t =>
                        set_message t "Generating image from prompt...") in
            let '(r, _, w) :=
              generate_image_from_prompt E generator (world st)
                                         prompt output_path in
            (r, with_world st w)
        end in
      match r with
      | Raise e => (st, Some e)
      | Ok result_path =>
          let st := assign_status st task "completed" in
          let st := modify st task (fun t => set_progress t 100) in
          let st := modify st task (fun t =>
                      set_message t "Image generated successfully!") in
          let st := modify st task (fun t => set_result_path t result_path) in
          match remove_input st input_file_path with
          | Ok st => (st, None)
          | Raise e => (st, Some e)
          end
      end
  end.

(** [generate_image_background(task, api_key, model, prompt,
    input_file_path)]: the state the thread leaves, and the exception
    it dies with when the handler itself raises. *)
Definition generate_image_background (st : State) (task : ref)
           (api_key model prompt : string)
           (input_file_path : option string) : State * option exn :=
  match worker_try st task api_key model prompt input_file_path with
  | (st, None) => (st, None)
  | (st, Some e) =>
      let st := assign_status st task "error" in
      let st := modify st task (fun t => set_error t (exn_str e)) in
      let st := modify st task (fun t => set_message t ("Error: " ++ exn_str e)) in
      match remove_input st input_file_path with
      | Ok st => (st, None)
      | Raise e' => (st, Some e')
      end
  end.

(** The thread the handler started, run on its arguments. *)
Definition run_worker (st : State) (a : WorkerArgs) : State * option exn :=
  generate_image_background st (arg_task a) (arg_api_key a) (arg_model a)
    (arg_prompt a) (arg_input_file_path a).

End WithExternals.

(** *** The periodic sweep *)

Definition is_terminal (status : string) : bool :=
  existsb (String.eqb status) ["completed"; "error"].

(** The first loop of [cleanup_old_tasks], from one registry entry on:
    the ids to remove, in order, and the state after the writes to
    [finished_at]. *)
Fixpoint sweep_scan (current_time : float) (items : list (string * ref))
         (st : State) (to_remove : list string) : list string * State :=
  match items with
  | [] => (to_remove, st)
  | (task_id, r) :: items' =>
      match deref st r with
      | None => sweep_scan current_time items' st to_remove
      | Some task =>
          let to_remove :=
            match created_at task with
            | Some created =>
                if fltb (of_int 3600) (fsub current_time created)
                then to_remove ++ [task_id] else to_remove
            | None => to_remove
            end in
          if is_terminal (status task) then
            match finished_at task with
            | None =>
                sweep_scan current_time items'
                  (modify st r (fun t => set_finished_at t current_time))
                  to_remove
            | Some finished =>
                if fltb (of_int 600) (fsub current_time finished)
                then sweep_scan current_time items' st (to_remove ++ [task_id])
                else sweep_scan current_time items' st to_remove
            end
          else sweep_scan current_time items' st to_remove
      end
  end.

(** The second loop: delete the result file and then the entry. *)
Fixpoint sweep_remove (to_remove : list string) (st : State) : result State :=
  match to_remove with
  | [] => Ok st
  | task_id :: rest =>
      match dict_get (active_tasks st) task_id with
      | None => sweep_remove rest st
      | Some r =>
          let removed :=
            match deref st r with
            | Some task =>
                match result_path task with
                | Some p =>
                    if truthy p && path_exists (fs (world st)) p then
                      match remove (fs (world st)) p with
                      | Ok fs' => Ok (with_world st (with_fs (world st) fs'))
                      | Raise e => Raise e
                      end
                    else Ok st
                | None => Ok st
                end
            | None => Ok st
            end in
          match removed with
          | Raise e => Raise e
          | Ok st =>
              sweep_remove rest
                (with_active_tasks st (dict_del (active_tasks st) task_id))
          end
      end
  end.

(** [cleanup_old_tasks()], [current_time] being what [time.time()]
    answers. *)
Definition cleanup_old_tasks (st : State) (current_time : float) : result State :=
  let '(to_remove, st) := sweep_scan current_time (active_tasks st) st [] in
  sweep_remove to_remove st.

End WebApi.

(** ** web_api.py: the routes that read or drop a task *)

Module WebApiRoutes.
Import Gen WebApi.

(** The JSON object [get_task_status] answers for a known task.  A key the
    object may lack is an option; [body_error] holds [task.error], which
    may itself be [None]. *)
Record StatusBody := {
  body_task_id : string;
  body_status : string;
  body_progress : Z;
  body_message : string;
  download_url : option string;
  preview_url : option string;
  body_error : option (option string)
}.

Inductive StatusReply :=
| StatusOk (body : StatusBody)
| StatusNotFound (error : string).

(** [get_task_status(task_id)], the handler of [GET /api/status/<task_id>] *)
Definition get_task_status (st : State) (task_id : string) : StatusReply :=
  match dict_get (active_tasks st) task_id with
  | None => StatusNotFound "Task not found"
  | Some r =>
      match deref st r with
      | None => StatusNotFound "Task not found"
      | Some task =>
          let completed :=
            String.eqb (status task) "completed" && truthy_opt (result_path task) in
          StatusOk
            {| body_task_id := task_id;
               body_status := status task;
               body_progress := progress task;
               body_message := message task;
               download_url :=
                 if completed then Some ("/api/download/" ++ task_id)%string else None;
               preview_url :=
                 if completed then Some ("/api/preview/" ++ task_id)%string else None;
               body_error :=
                 if completed then None
                 else if String.eqb (status task) "error" then Some (error task)
                      else None |}
      end
  end.

(** What the two file routes answer: [send_file(...)] or an error. *)
Inductive FileReply :=
| SendFile (path : string) (content : bytes) (as_attachment : bool)
| FileError (code : nat) (error : string).

(** The body [download_image] and [preview_image] share. *)
Definition send_result (st : State) (task_id : string) (as_attachment : bool)
  : FileReply :=
  match dict_get (active_tasks st) task_id with
  | None => FileError 404 "Task not found"
  | Some r =>
      match deref st r with
      | None => FileError 404 "Task not found"
      | Some task =>
          if negb (String.eqb (status task) "completed")
             || negb (truthy_opt (result_path task))
          then FileError 400 "Image not ready"
          else
            match result_path task with
            | Some p =>
                match dict_get (Os.files (fs (world st))) p with
                | Some content => SendFile p content as_attachment
                | None => FileError 404 "File not found"
                end
            | None => FileError 400 "Image not ready"
            end
      end
  end.

(** [download_image(task_id)], the handler of [/api/download/<task_id>] *)
Definition download_image (st : State) (task_id : string) : FileReply :=
  send_result st task_id true.

(** [preview_image(task_id)], the handler of [/api/preview/<task_id>] *)
Definition preview_image (st : State) (task_id : string) : FileReply :=
  send_result st task_id false.

(** What [cleanup_task] answers; nothing catches what [os.remove] raises. *)
Inductive CleanupReply :=
| CleanedUp
| CleanupNotFound
| CleanupCrashed (e : exn).

(** [if task.result_path and os.path.exists(task.result_path):
    os.remove(task.result_path)] *)
Definition remove_result (st : State) (task : GenerationTask) : result State :=
  match result_path task with
  | Some p =>
      if truthy p && path_exists (fs (world st)) p then
        match remove (fs (world st)) p with
        | Ok fs' => Ok (with_world st (with_fs (world st) fs'))
        | Raise e => Raise e
        end
      else Ok st
  | None => Ok st
  end.

(** [cleanup_task(task_id)], the handler of [DELETE /api/cleanup/<task_id>] *)
Definition cleanup_task (st : State) (task_id : string) : CleanupReply * State :=
  match dict_get (active_tasks st) task_id with
  | None => (CleanupNotFound, st)
  | Some r =>
      let removed :=
        match deref st r with
        | Some task => remove_result st task
        | None => Ok st
        end in
      match removed with
      | Raise e => (CleanupCrashed e, st)
      | Ok st =>
          (CleanedUp, with_active_tasks st (dict_del (active_tasks st) task_id))
      end
  end.

End WebApiRoutes.

(** ** gemini_image_generator.py: the command line *)

Module Cli.
Import Gen.



End Cli.

(** ** ui.py: the worker behind the Generate button *)

Module Ui.
Import Gen.





End Ui.

(** ** Concrete collaborators and inputs for the examples *)

Module Scenario.
Import Gen.

(** An endpoint that answers every request with [r]. *)
Definition answering (r : Response) : Client := fun _ _ => Ok (Some r).

(** An endpoint that cannot be reached. *)
Definition unreachable (why : string) : Client :=
  fun _ _ => Raise (Exn OtherError why).

(** Libraries around a given endpoint: PNG uploads, no base64 payloads,
    file names kept, identifiers and temporary names numbered. *)
Definition externals (c : Client) : Externals :=
  {| genai_Client := fun _ => c;
     b64decode := fun _ => None;
     image_format := fun _ => Some "PNG";
     secure_filename := fun s => s;
     uuid4 := fun n => ("uuid-" ++ String (ascii_of_nat (48 + n)) "")%string;
     temp_name :=
       fun n => ("/tmp/tmp" ++ String (ascii_of_nat (48 + n)) ".png")%string |}.

Definition note : Part :=
  {| text := Some "Here is your image."; inline_data := None |}.

(** An image part of [n] bytes. *)
Definition picture (n : nat) : Part :=
  {| text := None;
     inline_data := Some {| mime_type := "image/png";
                            data := DataBytes (repeat x89 n) |} |}.

(** One candidate: a text part, then an image part of [n] bytes. *)
Definition text_then_image (n : nat) : Response :=
  {| candidates := [ {| parts := [note; picture n] |} ] |}.

Definition generator_on (c : Client) : Generator :=
  {| self_client := c;
     self_model := "gemini-2.5-flash-image-preview";
     self_total_cost := fzero |}.

Definition empty_fs : FileSystem := {| files := []; locked := [] |}.

Definition empty_world : World :=
  {| fs := empty_fs; GEMINI_API_KEY := Some "key"; sent := [] |}.

Definition red_circle : string := "A red circle on white background".

(** The registry holding one task, [t1], with an upload saved for it
    that the process cannot unlink. *)
Definition busy_upload : WebApi.State :=
  {| WebApi.heap := [WebApi.GenerationTask__init__ "t1"];
     WebApi.active_tasks := [("t1", 0%nat)];
     WebApi.world :=
       {| fs := {| files := [("uploads/in.png", [x89])];
                   locked := ["uploads/in.png"] |};
          GEMINI_API_KEY := None;
          sent := [] |};
     WebApi.draws := 1;
     WebApi.status_log := [] |}.

(** The registry holding one task in the given status, as the handler
    and the worker leave it: no code assigns [created_at]. *)
Definition one_task (status : string) : WebApi.State :=
  {| WebApi.heap :=
       [WebApi.set_status (WebApi.GenerationTask__init__ "t1") status];
     WebApi.active_tasks := [("t1", 0%nat)];
     WebApi.world := empty_world;
     WebApi.draws := 1;
     WebApi.status_log := [] |}.

(** A form with key and prompt, and an upload named [name]. *)
Definition form_with_upload (name : string) : WebApi.Request :=
  {| WebApi.is_json := false;
     WebApi.json := [];
     WebApi.form := [("api_key", "key"); ("prompt", "a cat")];
     WebApi.files :=
       [("input_image", {| WebApi.filename := name; WebApi.content := [x89] |})] |}.

Definition fresh_process : WebApi.State :=
  {| WebApi.heap := [];
     WebApi.active_tasks := [];
     WebApi.world := empty_world;
     WebApi.draws := 0;
     WebApi.status_log := [] |}.

End Scenario.

(** ** Predicates worded as the specification words them *)

Module Stated.
Import Gen.

(** A part qualifies when it carries inline data whose MIME type starts
    with [image/] and whose length exceeds 1000, and which are bytes or
    decode from base64. *)
Definition qualifies (E : Externals) (part : Part) : Prop :=
  exists blob : Blob,
    inline_data part = Some blob /\
    startswith (mime_type blob) "image/" = true /\
    (1000 < data_len (data blob))%nat /\
    match data blob with
    | DataBytes _ => True
    | DataStr s => b64decode E s <> None
    end.

(** What the worked example promises: 33 characters, a text cost that
    prints as 0.00000825 and a total that prints as 0.0027426. *)
Definition red_circle_as_stated (cb : CostBreakdown) : Prop :=
  input_chars cb = 33%nat /\
  approx (input_text_cost cb) (825 # 100000000) (5 # 1000000000) = true /\
  approx (total_cost cb) (27426 # 10000000) (5 # 100000000) = true.

(** The estimate of a prompt without input image, [0.0] for a model that
    is not listed. *)
Definition estimate (model prompt : string) : float :=
  match calculate_cost model prompt false with
  | Ok cb => total_cost cb
  | Raise _ => fzero
  end.

(** [generate_image_from_prompt] called once per prompt, in order, on the
    same generator, whatever each call returns. *)
Fixpoint generate_each (E : Externals) (g : Generator) (w : World)
         (prompts : list string) (output_path : string) : Generator * World :=
  match prompts with
  | [] => (g, w)
  | prompt :: rest =>
      let '(_, g, w) := generate_image_from_prompt E g w prompt output_path in
      generate_each E g w rest output_path
  end.

End Stated.

(** ** Predicates of the further properties *)

Module Further.
Import Gen.

(** The bytes a qualifying part stands for: its data, decoded when they
    arrive as a string. *)
Definition stands_for (E : Externals) (part : Part) (image : bytes) : Prop :=
  exists blob : Blob,
    inline_data part = Some blob /\
    startswith (mime_type blob) "image/" = true /\
    (1000 < data_len (data blob))%nat /\
    (data blob = DataBytes image \/
     exists s, data blob = DataStr s /\ b64decode E s = Some image).

(** No key occurs twice, as in every Python dictionary. *)
Definition unique_keys {V} (d : dict V) : Prop := NoDup (map fst d).

(** A world in which the keys are unique and [p] may be unlinked. *)
Definition removable (p : string) (w : World) : Prop :=
  unique_keys (files (fs w)) /\ is_locked (fs w) p = false.

(** [st'] differs from [st] at most in the object behind [task], in the
    world and in the log. *)
Definition only_task_changed (task : WebApi.ref) (st st' : WebApi.State) : Prop :=
  WebApi.active_tasks st' = WebApi.active_tasks st /\
  WebApi.draws st' = WebApi.draws st /\
  List.length (WebApi.heap st') = List.length (WebApi.heap st) /\
  forall r, r <> task -> WebApi.deref st' r = WebApi.deref st r.

(** The task is on the list of the sweep at time [now]: older than an hour
    by [created_at], or terminal and stamped more than ten minutes ago. *)
Definition due (now : float) (t : WebApi.GenerationTask) : bool :=
  match WebApi.created_at t with
  | Some created => fltb (of_int 3600) (fsub now created)
  | None => false
  end
  || (WebApi.is_terminal (WebApi.status t)
      && match WebApi.finished_at t with
         | Some finished => fltb (of_int 600) (fsub now finished)
         | None => false
         end).


(** [t'] is [t], or [t] stamped by the sweep at time [now]. *)
Definition stamped (now : float) (t t' : WebApi.GenerationTask) : Prop :=
  t' = t \/
  (WebApi.finished_at t = None /\ WebApi.is_terminal (WebApi.status t) = true /\
   t' = WebApi.set_finished_at t now).

(** What the first loop of the sweep does to the objects: each is left as
    it is or, when terminal and never met, stamped with the time. *)
Definition scanned (now : float) (st st' : WebApi.State) : Prop :=
  WebApi.active_tasks st' = WebApi.active_tasks st /\
  WebApi.world st' = WebApi.world st /\
  forall r,
    match WebApi.deref st r with
    | Some t => exists t', WebApi.deref st' r = Some t' /\ stamped now t t'
    | None => WebApi.deref st' r = None
    end.

End Further.

(** ** Concrete inputs for the examples of the further properties *)

Module Cases.
Import Gen Scenario.

(** The libraries around an endpoint that answers a text part and an image
    part of 1001 bytes, and around one that is down. *)
Definition working : Externals := externals (answering (text_then_image 1001)).

Definition image_1001 : bytes := repeat x89 1001.


Definition world_with_input : World :=
  {| fs := {| files := [("in.png", [x89])]; locked := [] |};
     GEMINI_API_KEY := Some "key";
     sent := [] |}.

Definition server_without_key : App.Server :=
  {| App.generator := None;
     App.world := {| fs := empty_fs; GEMINI_API_KEY := None; sent := [] |};
     App.draws := 0 |}.

Definition server_on (c : Client) : App.Server :=
  {| App.generator := Some (generator_on c);
     App.world := empty_world;
     App.draws := 0 |}.

(** A form with key and prompt and no upload. *)
Definition form_only : WebApi.Request :=
  {| WebApi.is_json := false;
     WebApi.json := [];
     WebApi.form := [("api_key", "key"); ("prompt", "a cat")];
     WebApi.files := [] |}.

(** The registry holding one task, [t1], with an upload the process may
    unlink. *)
Definition waiting_upload : WebApi.State :=
  {| WebApi.heap := [WebApi.GenerationTask__init__ "t1"];
     WebApi.active_tasks := [("t1", 0%nat)];
     WebApi.world :=
       {| fs := {| files := [("uploads/in.png", [x89])]; locked := [] |};
          GEMINI_API_KEY := None;
          sent := [] |};
     WebApi.draws := 1;
     WebApi.status_log := [] |}.

(** The registry holding one completed task stamped at time [finished]. *)
Definition stamped_task (finished : float) : WebApi.State :=
  {| WebApi.heap :=
       [WebApi.set_finished_at
          (WebApi.set_status (WebApi.GenerationTask__init__ "t1") "completed")
          finished];
     WebApi.active_tasks := [("t1", 0%nat)];
     WebApi.world := empty_world;
     WebApi.draws := 1;
     WebApi.status_log := [] |}.

End Cases.

(** * Properties *)

(** ** binary64 facts the cost formulas rest on *)

Section FloatFacts.

Lemma binary_round_aux_nonneg (m e : Z) (l : location) :
  nonneg (binary_round_aux prec emax false m e l) = true.
Proof.
  unfold binary_round_aux.
  destruct (shr_fexp prec emax m e l) as [mrs' e'].
  destruct (shr_fexp prec emax _ e' loc_Exact) as [mrs'' e''].
  destruct (shr_m mrs''); try reflexivity.
  destruct (Z.leb e'' (Z.sub emax prec)); reflexivity.
Qed.

Lemma binary_round_nonneg (m : positive) (e : Z) :
  nonneg (binary_round prec emax false m e) = true.
Proof.
  unfold binary_round.
  destruct (shl_align m e _) as [mz ez].
  apply binary_round_aux_nonneg.
Qed.

Lemma nonneg_exact_int (n : Z) : 0 <= n -> nonneg (exact_int n) = true.
Proof. destruct n; simpl; intros; try reflexivity; lia. Qed.

Lemma nonneg_fdiv (x y : float) :
  nonneg x = true -> nonneg y = true -> nonneg (fdiv x y) = true.
Proof.
  destruct x as [[]|[]| |[] mx ex], y as [[]|[]| |[] my ey];
    simpl; try discriminate; try reflexivity; intros _ _.
  unfold fdiv, SFdiv.
  destruct (SFdiv_core_binary prec emax (Zpos mx) ex (Zpos my) ey) as [[mz ez] lz].
  apply binary_round_aux_nonneg.
Qed.

Lemma nonneg_fmul (x y : float) :
  nonneg x = true -> nonneg y = true -> nonneg (fmul x y) = true.
Proof.
  destruct x as [[]|[]| |[] mx ex], y as [[]|[]| |[] my ey];
    simpl; try discriminate; try reflexivity; intros _ _.
  apply binary_round_aux_nonneg.
Qed.

Lemma nonneg_fadd (x y : float) :
  nonneg x = true -> nonneg y = true -> nonneg (fadd x y) = true.
Proof.
  destruct x as [[]|[]| |[] mx ex], y as [[]|[]| |[] my ey];
    simpl; try discriminate; try reflexivity; intros _ _.
  apply binary_round_nonneg.
Qed.

(** [x + 0.0 == x] bit for bit, unless [x] is [-0.0]. *)
Lemma fadd_zero_r (x : float) : nonneg x = true -> fadd x fzero = x.
Proof. destruct x as [[]|[]| |[] mx ex]; simpl; try discriminate; reflexivity. Qed.

Lemma nonneg_int_truediv (a b : Z) :
  0 <= a -> 0 <= b -> nonneg (int_truediv a b) = true.
Proof.
  intros Ha Hb. apply nonneg_fdiv; now apply nonneg_exact_int.
Qed.

End FloatFacts.

(** ** The cost estimate *)

Section CostEstimate.
Import Gen.

(** Every entry of the price table carries the same two prices. *)
Lemma table_pricing (M : string) (info : ModelInfo) :
  dict_get AVAILABLE_MODELS M = Some info ->
  pricing info = {| input_cost_per_1k_chars := decimal 25 5;
                    output_cost_per_image := decimal 2734375 9 |}.
Proof.
  unfold AVAILABLE_MODELS. cbn [dict_get].
  destruct (String.eqb M "gemini-2.5-flash-image-preview").
  - intros [= <-]. reflexivity.
  - destruct (String.eqb M "gemini-2.0-flash-preview-image-generation").
    + intros [= <-]. reflexivity.
    + discriminate.
Qed.

Lemma table_prices_nonneg (M : string) (info : ModelInfo) :
  dict_get AVAILABLE_MODELS M = Some info ->
  nonneg (input_cost_per_1k_chars (pricing info)) = true /\
  nonneg (output_cost_per_image (pricing info)) = true.
Proof.
  intros H. rewrite (table_pricing M info H). cbn [input_cost_per_1k_chars output_cost_per_image].
  split; apply nonneg_int_truediv; lia.
Qed.

Lemma text_cost_nonneg (M : string) (info : ModelInfo) (L : nat) :
  dict_get AVAILABLE_MODELS M = Some info ->
  nonneg (fmul (int_truediv (Z.of_nat L) 1000)
               (input_cost_per_1k_chars (pricing info))) = true.
Proof.
  intros H. apply nonneg_fmul.
  - apply nonneg_int_truediv; lia.
  - apply (table_prices_nonneg M info H).
Qed.

Lemma calculate_cost_unfold (M : string) (info : ModelInfo) (P : string) (b : bool) :
  dict_get AVAILABLE_MODELS M = Some info ->
  calculate_cost M P b =
  Ok {| input_text_cost :=
          fmul (int_truediv (Z.of_nat (String.length P)) 1000)
               (input_cost_per_1k_chars (pricing info));
        input_image_cost :=
          if b then output_cost_per_image (pricing info) else fzero;
        output_image_cost := output_cost_per_image (pricing info);
        total_cost :=
          fadd (fadd (fmul (int_truediv (Z.of_nat (String.length P)) 1000)
                           (input_cost_per_1k_chars (pricing info)))
                     (output_cost_per_image (pricing info)))
               (if b then output_cost_per_image (pricing info) else fzero);
        input_chars := String.length P |}.
Proof.
  intros H. unfold calculate_cost, model_entry. rewrite H. reflexivity.
Qed.

(** C1.  For a prompt of length [L] and a model of the table, the
    estimate without input image has [input_chars = L],
    [input_text_cost = (L / 1000) * input_cost_per_1k_chars],
    [output_image_cost = output_cost_per_image], [input_image_cost = 0]
    and [total_cost = (L / 1000) * input_cost_per_1k_chars +
    output_cost_per_image]; the estimate with an input image has the
    total of the one without, plus [output_cost_per_image].  Sums and
    products are those of binary64, as the program computes them. *)
Theorem calculate_cost_breakdown (M : string) (info : ModelInfo) (P : string) :
  dict_get AVAILABLE_MODELS M = Some info ->
  exists without_image with_image : CostBreakdown,
    calculate_cost M P false = Ok without_image /\
    calculate_cost M P true = Ok with_image /\
    input_chars without_image = String.length P /\
    input_text_cost without_image =
      fmul (int_truediv (Z.of_nat (String.length P)) 1000)
           (input_cost_per_1k_chars (pricing info)) /\
    output_image_cost without_image = output_cost_per_image (pricing info) /\
    input_image_cost without_image = fzero /\
    total_cost without_image =
      fadd (fmul (int_truediv (Z.of_nat (String.length P)) 1000)
                 (input_cost_per_1k_chars (pricing info)))
           (output_cost_per_image (pricing info)) /\
    total_cost with_image =
      fadd (total_cost without_image) (output_cost_per_image (pricing info)).
Proof.
  intros H.
  pose proof (text_cost_nonneg M info (String.length P) H) as Htext.
  destruct (table_prices_nonneg M info H) as [_ Hout].
  pose proof (nonneg_fadd _ _ Htext Hout) as Hsum.
  eexists. eexists.
  split; [apply (calculate_cost_unfold M info P false H)|].
  split; [apply (calculate_cost_unfold M info P true H)|].
  cbn [input_chars input_text_cost output_image_cost input_image_cost total_cost].
  rewrite (fadd_zero_r _ Hsum).
  repeat split; reflexivity.
Qed.

Lemma calculate_cost_breakdown_witness :
  dict_get AVAILABLE_MODELS "gemini-2.5-flash-image-preview" <> None /\
  exists without_image with_image : CostBreakdown,
    calculate_cost "gemini-2.5-flash-image-preview" "a cat" false = Ok without_image /\
    calculate_cost "gemini-2.5-flash-image-preview" "a cat" true = Ok with_image /\
    total_cost with_image =
      fadd (total_cost without_image) (decimal 2734375 9).
Proof.
  split; [discriminate|].
  destruct (calculate_cost_breakdown "gemini-2.5-flash-image-preview" _ "a cat" eq_refl)
    as (a & b & Ha & Hb & _ & _ & _ & _ & _ & Hab).
  exists a, b. repeat split; assumption.
Defined.

(** C8.  For every prompt, every model of the table and both values of
    [has_input_image], the estimate satisfies [total_cost =
    input_text_cost + input_image_cost + output_image_cost], the sum
    taken from left to right in binary64. *)
Theorem total_cost_is_sum_of_parts (M : string) (info : ModelInfo) (P : string)
        (has_input_image : bool) :
  dict_get AVAILABLE_MODELS M = Some info ->
  exists cb : CostBreakdown,
    calculate_cost M P has_input_image = Ok cb /\
    total_cost cb =
      fadd (fadd (input_text_cost cb) (input_image_cost cb)) (output_image_cost cb).
Proof.
  intros H.
  pose proof (text_cost_nonneg M info (String.length P) H) as Htext.
  destruct (table_prices_nonneg M info H) as [_ Hout].
  pose proof (nonneg_fadd _ _ Htext Hout) as Hsum.
  eexists. split; [apply (calculate_cost_unfold M info P has_input_image H)|].
  cbn [input_text_cost output_image_cost input_image_cost total_cost].
  destruct has_input_image.
  - reflexivity.
  - rewrite (fadd_zero_r _ Hsum), (fadd_zero_r _ Htext). reflexivity.
Qed.

Lemma total_cost_is_sum_of_parts_witness :
  exists cb : CostBreakdown,
    calculate_cost "gemini-2.0-flash-preview-image-generation" "a cat" true = Ok cb /\
    total_cost cb =
      fadd (fadd (input_text_cost cb) (input_image_cost cb)) (output_image_cost cb).
Proof.
  exact (total_cost_is_sum_of_parts
           "gemini-2.0-flash-preview-image-generation" _ "a cat" true eq_refl).
Defined.

End CostEstimate.

(** ** The worked example of the specification *)

Section RedCircle.
Import Gen Scenario Stated.

(** The prompt has 32 characters, not 33, and neither figure of the
    example is reached: none of the three parts holds. *)
Lemma red_circle_as_stated_fails :
  exists cb : CostBreakdown,
    calculate_cost "gemini-2.5-flash-image-preview" red_circle false = Ok cb /\
    input_chars cb <> 33%nat /\
    approx (input_text_cost cb) (825 # 100000000) (5 # 1000000000) = false /\
    approx (total_cost cb) (27426 # 10000000) (5 # 100000000) = false /\
    ~ red_circle_as_stated cb.
Proof.
  eexists. split; [vm_compute; reflexivity|].
  split; [vm_compute; discriminate|].
  split; [vm_compute; reflexivity|].
  split; [vm_compute; reflexivity|].
  intros [H _]. vm_compute in H. discriminate.
Qed.

(** C9, amended.  The prompt "A red circle on white background" has 32
    characters; at [input_cost_per_1k_chars = 0.00025] and
    [output_cost_per_image = 0.002734375], without input image, the
    estimate has [input_text_cost] printing as 0.00000800 and
    [total_cost] printing as 0.0027424 (it is 0.002742375 to nine
    decimals). *)
Theorem red_circle_cost :
  exists (info : ModelInfo) (cb : CostBreakdown),
    dict_get AVAILABLE_MODELS "gemini-2.5-flash-image-preview" = Some info /\
    input_cost_per_1k_chars (pricing info) = decimal 25 5 /\
    output_cost_per_image (pricing info) = decimal 2734375 9 /\
    calculate_cost "gemini-2.5-flash-image-preview" red_circle false = Ok cb /\
    input_chars cb = 32%nat /\
    approx (input_text_cost cb) (800 # 100000000) (5 # 1000000000) = true /\
    approx (total_cost cb) (27424 # 10000000) (5 # 100000000) = true /\
    approx (total_cost cb) (2742375 # 1000000000) (5 # 10000000000) = true.
Proof.
  eexists. eexists. split; [reflexivity|].
  split; [reflexivity|]. split; [reflexivity|].
  split; [vm_compute; reflexivity|].
  repeat split; vm_compute; reflexivity.
Qed.

End RedCircle.

(** ** Scanning the response and saving the image *)

Section Generation.
Import Gen.
Variable E : Externals.

Lemma dict_get_set_same {V} (d : dict V) (k : string) (v : V) :
  dict_get (dict_set d k v) k = Some v.
Proof.
  induction d as [|[k' v'] d IH]; simpl.
  - now rewrite String.eqb_refl.
  - destruct (String.eqb k k') eqn:Hk; simpl.
    + now rewrite String.eqb_refl.
    + now rewrite Hk.
Qed.

Lemma self_client_add_cost (g : Generator) (c : float) :
  self_client (add_cost g c) = self_client g.
Proof. reflexivity. Qed.

Lemma self_model_add_cost (g : Generator) (c : float) :
  self_model (add_cost g c) = self_model g.
Proof. reflexivity. Qed.

(** The scan of one candidate made of a part without inline data and an
    image part of more than 1000 bytes stops on the image. *)
Lemma first_image_text_then_image (note picture : Part) (mime : string)
      (image : bytes) :
  inline_data note = None ->
  inline_data picture = Some {| mime_type := mime; data := DataBytes image |} ->
  startswith mime "image/" = true ->
  (1000 < List.length image)%nat ->
  first_image E {| candidates := [ {| parts := [note; picture] |} ] |} = Some image.
Proof.
  intros Hn Hp Hm Hl.
  unfold first_image. cbn [candidates parts first_some].
  unfold part_image. rewrite Hn, Hp. cbn [mime_type data data_len].
  rewrite Hm. apply Nat.ltb_lt in Hl. rewrite Hl. reflexivity.
Qed.

(** What [request_and_save] does once the endpoint has answered a
    response in which the scan finds [image]. *)
Lemma request_and_save_found (g : Generator) (w : World)
      (contents : list ContentItem) (output_path : string)
      (response : Response) (image : bytes) :
  self_client g (self_model g) contents = Ok (Some response) ->
  first_image E response = Some image ->
  is_locked (fs w) output_path = false ->
  exists w',
    request_and_save E g w contents output_path = (Ok output_path, w') /\
    dict_get (files (fs w')) output_path = Some image.
Proof.
  intros Hc Hf Hl. unfold request_and_save. rewrite Hc.
  destruct (candidates response) as [|c cs] eqn:Hcs.
  - unfold first_image in Hf. rewrite Hcs in Hf. discriminate.
  - rewrite Hf. unfold write_file.
    cbn [fs with_sent]. rewrite Hl.
    eexists. split; [reflexivity|].
    cbn [with_fs fs files]. apply dict_get_set_same.
Qed.

(** C2, amended.  When the response has one candidate made of a text
    part followed by an image part whose inline data are more than 1000
    bytes and whose MIME type starts with [image/], each of the two
    generating methods writes exactly those bytes to the output path
    (which the process may write) and returns that path. *)
Theorem image_part_over_1000_bytes_is_saved
        (g : Generator) (w : World) (info : ModelInfo)
        (prompt output_path input_image_path : string)
        (note picture : Part) (mime : string) (image : bytes) :
  dict_get AVAILABLE_MODELS (self_model g) = Some info ->
  inline_data note = None ->
  inline_data picture = Some {| mime_type := mime; data := DataBytes image |} ->
  startswith mime "image/" = true ->
  (1000 < List.length image)%nat ->
  (forall contents,
      self_client g (self_model g) contents =
      Ok (Some {| candidates := [ {| parts := [note; picture] |} ] |})) ->
  is_locked (fs w) output_path = false ->
  (exists g' w',
      generate_image_from_prompt E g w prompt output_path = (Ok output_path, g', w') /\
      dict_get (files (fs w')) output_path = Some image) /\
  (path_exists (fs w) input_image_path = true ->
   exists g' w',
      generate_image_with_input E g w input_image_path prompt output_path
      = (Ok output_path, g', w') /\
      dict_get (files (fs w')) output_path = Some image).
Proof.
  intros Hm Hn Hp Hmime Hlen Hc Hl.
  pose proof (first_image_text_then_image note picture mime image Hn Hp Hmime Hlen) as Hf.
  split.
  - unfold generate_image_from_prompt.
    rewrite (calculate_cost_unfold _ info prompt false Hm).
    cbn [total_cost].
    match goal with
    | |- context [request_and_save E ?g' w ?c output_path] =>
        destruct (request_and_save_found g' w c output_path _ image (Hc c) Hf Hl)
          as (w' & Hr & Hw)
    end.
    rewrite Hr. eexists. eexists. split; [reflexivity|exact Hw].
  - intros Hex.
    unfold generate_image_with_input.
    rewrite (calculate_cost_unfold _ info prompt true Hm).
    cbn [total_cost].
    unfold load_image. rewrite Hex. cbn [negb].
    unfold path_exists, dict_mem in Hex. unfold read_file.
    destruct (dict_get (files (fs w)) input_image_path) as [content|]; [|discriminate].
    match goal with
    | |- context [request_and_save E ?g' w ?c output_path] =>
        destruct (request_and_save_found g' w c output_path _ image (Hc c) Hf Hl)
          as (w' & Hr & Hw)
    end.
    rewrite Hr. eexists. eexists. split; [reflexivity|exact Hw].
Qed.

End Generation.

Section GenerationExamples.
Import Gen Scenario.

Lemma image_part_over_1000_bytes_is_saved_witness :
  (1000 < List.length (repeat x89 1001))%nat /\
  (exists g' w',
      generate_image_from_prompt
        (externals (answering (text_then_image 1001)))
        (generator_on (answering (text_then_image 1001)))
        {| fs := {| files := [("in.png", [x89])]; locked := [] |};
           GEMINI_API_KEY := None; sent := [] |}
        "a cat" "out.png" = (Ok "out.png", g', w') /\
      dict_get (files (fs w')) "out.png" = Some (repeat x89 1001)) /\
  (exists g' w',
      generate_image_with_input
        (externals (answering (text_then_image 1001)))
        (generator_on (answering (text_then_image 1001)))
        {| fs := {| files := [("in.png", [x89])]; locked := [] |};
           GEMINI_API_KEY := None; sent := [] |}
        "in.png" "a cat" "out.png" = (Ok "out.png", g', w') /\
      dict_get (files (fs w')) "out.png" = Some (repeat x89 1001)).
Proof.
  assert (Hlen : (1000 < List.length (repeat x89 1001))%nat)
    by (rewrite repeat_length; lia).
  split; [exact Hlen|].
  destruct (image_part_over_1000_bytes_is_saved
              (externals (answering (text_then_image 1001)))
              (generator_on (answering (text_then_image 1001)))
              {| fs := {| files := [("in.png", [x89])]; locked := [] |};
                 GEMINI_API_KEY := None; sent := [] |}
              _ "a cat" "out.png" "in.png" note (picture 1001)
              "image/png" (repeat x89 1001)
              eq_refl eq_refl eq_refl eq_refl Hlen (fun _ => eq_refl) eq_refl)
    as [Hprompt Hinput].
  split; [exact Hprompt|].
  apply Hinput. reflexivity.
Defined.

(** An image part of exactly 1000 bytes is "at least 1000 bytes", yet
    the scan passes over it: the method fails and writes nothing. *)
Lemma image_part_of_1000_bytes_is_not_saved :
  (1000 <= List.length (repeat x89 1000))%nat /\
  exists g' w',
    generate_image_from_prompt
      (externals (answering (text_then_image 1000)))
      (generator_on (answering (text_then_image 1000)))
      empty_world "a cat" "out.png"
    = (Raise (Exn RuntimeError
                  "Failed to generate image: No image generated in response"),
       g', w') /\
    dict_get (files (fs w')) "out.png" = None.
Proof.
  split; [rewrite repeat_length; lia|].
  eexists. eexists. split; vm_compute; reflexivity.
Qed.

End GenerationExamples.

(** ** A response without a usable image *)

Section NoImage.
Import Gen Stated.
Variable E : Externals.

Lemma part_image_unqualified (part : Part) :
  ~ qualifies E part -> part_image E part = None.
Proof.
  intros Hq. unfold part_image.
  destruct (inline_data part) as [blob|] eqn:Hb; [|reflexivity].
  destruct (startswith (mime_type blob) "image/") eqn:Hm; [|reflexivity].
  destruct (1000 <? data_len (data blob))%nat eqn:Hl; [|reflexivity].
  cbn [andb]. apply Nat.ltb_lt in Hl.
  assert (Hblob : match data blob with
                  | DataBytes _ => True
                  | DataStr s => b64decode E s <> None
                  end -> qualifies E part)
    by (intros Hd; exists blob; repeat split; assumption).
  destruct (data blob) as [b|s].
  - exfalso. apply Hq, Hblob. exact I.
  - destruct (b64decode E s) as [b|]; [|reflexivity].
    exfalso. apply Hq, Hblob. discriminate.
Qed.

Lemma first_some_none {A B} (f : A -> option B) (l : list A) :
  (forall a, In a l -> f a = None) -> first_some f l = None.
Proof.
  induction l as [|a l IH]; intros H; [reflexivity|].
  cbn [first_some]. rewrite (H a (or_introl eq_refl)).
  apply IH. intros b Hb. apply H. now right.
Qed.

Lemma first_image_none (response : Response) :
  (forall candidate part,
      In candidate (candidates response) -> In part (parts candidate) ->
      ~ qualifies E part) ->
  first_image E response = None.
Proof.
  intros H. unfold first_image. apply first_some_none.
  intros c Hc. apply first_some_none.
  intros p Hp. apply part_image_unqualified. exact (H c p Hc Hp).
Qed.

(** C6, amended.  When no part of any candidate qualifies, the method
    writes nothing and raises the [RuntimeError] that wraps every
    failure of the [try] block; its message is "Failed to generate
    image: No image generated in response" when the response has a
    candidate, and "Failed to generate image: No candidates in
    response" when it has none. *)
Theorem no_qualifying_part_raises_RuntimeError
        (g : Generator) (w : World) (info : ModelInfo)
        (prompt output_path : string) (response : Response) :
  dict_get AVAILABLE_MODELS (self_model g) = Some info ->
  self_client g (self_model g) [ItemText prompt] = Ok (Some response) ->
  (forall candidate part,
      In candidate (candidates response) -> In part (parts candidate) ->
      ~ qualifies E part) ->
  exists g' w',
    generate_image_from_prompt E g w prompt output_path
    = (Raise (Exn RuntimeError
                  ("Failed to generate image: " ++
                   match candidates response with
                   | [] => "No candidates in response"
                   | _ :: _ => "No image generated in response"
                   end)),
       g', w') /\
    fs w' = fs w.
Proof.
  intros Hm Hc Hq.
  unfold generate_image_from_prompt.
  rewrite (calculate_cost_unfold _ info prompt false Hm).
  cbn [total_cost].
  unfold request_and_save.
  rewrite self_client_add_cost, self_model_add_cost, Hc.
  destruct (candidates response) as [|c cs] eqn:Hcs.
  - eexists. eexists. split; reflexivity.
  - rewrite (first_image_none response).
    + eexists. eexists. split; reflexivity.
    + rewrite Hcs. exact Hq.
Qed.

(** ** What an attempt costs the session *)

Lemma from_prompt_charges (g : Generator) (w : World) (cb : CostBreakdown)
      (prompt output_path : string) :
  calculate_cost (self_model g) prompt false = Ok cb ->
  exists r w',
    generate_image_from_prompt E g w prompt output_path
    = (r, add_cost g (total_cost cb), w').
Proof.
  intros H. unfold generate_image_from_prompt. rewrite H.
  destruct (request_and_save E _ w [ItemText prompt] output_path) as [r w'].
  now exists (wrap_failure r), w'.
Qed.

Lemma with_input_charges (g : Generator) (w : World) (cb : CostBreakdown)
      (input_image_path prompt output_path : string) :
  calculate_cost (self_model g) prompt true = Ok cb ->
  exists r w',
    generate_image_with_input E g w input_image_path prompt output_path
    = (r, add_cost g (total_cost cb), w').
Proof.
  intros H. unfold generate_image_with_input. rewrite H.
  destruct (load_image E w input_image_path) as [[image_data mime]|e].
  - destruct (request_and_save E _ w _ output_path) as [r w'].
    now exists (wrap_failure r), w'.
  - now eexists; exists w.
Qed.

(** C4, amended.  Each of the two generating methods, called with a model
    of the table, adds its estimate to the session total before it calls
    the endpoint: the total after the call is the total before plus the
    estimate whether the call returns a path or raises, so that a failed
    attempt raises the total by its estimate. *)
Theorem attempt_is_charged_whatever_the_outcome
        (g : Generator) (w : World) (info : ModelInfo)
        (prompt output_path input_image_path : string) :
  dict_get AVAILABLE_MODELS (self_model g) = Some info ->
  (exists cb r w',
      calculate_cost (self_model g) prompt false = Ok cb /\
      generate_image_from_prompt E g w prompt output_path
      = (r, add_cost g (total_cost cb), w')) /\
  (exists cb r w',
      calculate_cost (self_model g) prompt true = Ok cb /\
      generate_image_with_input E g w input_image_path prompt output_path
      = (r, add_cost g (total_cost cb), w')).
Proof.
  intros Hm. split.
  - pose proof (calculate_cost_unfold _ info prompt false Hm) as Hcb.
    destruct (from_prompt_charges g w _ prompt output_path Hcb) as (r & w' & H).
    eexists. exists r, w'. split; [exact Hcb|exact H].
  - pose proof (calculate_cost_unfold _ info prompt true Hm) as Hcb.
    destruct (with_input_charges g w _ input_image_path prompt output_path Hcb)
      as (r & w' & H).
    eexists. exists r, w'. split; [exact Hcb|exact H].
Qed.

End NoImage.

Section NoImageExamples.
Import Gen Scenario.

Lemma no_qualifying_part_raises_RuntimeError_witness :
  exists g' w',
    generate_image_from_prompt
      (externals (answering (text_then_image 999)))
      (generator_on (answering (text_then_image 999)))
      empty_world "a cat" "out.png"
    = (Raise (Exn RuntimeError
                  "Failed to generate image: No image generated in response"),
       g', w') /\
    fs w' = fs empty_world.
Proof.
  apply (no_qualifying_part_raises_RuntimeError
           (externals (answering (text_then_image 999)))
           (generator_on (answering (text_then_image 999)))
           empty_world _ "a cat" "out.png" (text_then_image 999)
           eq_refl eq_refl).
  intros candidate part [<-|[]] [<-|[<-|[]]] (blob & Hb & _ & Hl & _).
  - discriminate Hb.
  - injection Hb as <-. apply Nat.ltb_lt in Hl.
    vm_compute in Hl. discriminate Hl.
Defined.

(** The failure on a response whose only image part is too small is the
    very exception, class and text, that the method raises when the
    endpoint itself fails with that text: no error of its own. *)
Lemma small_image_failure_is_the_generic_wrapper :
  exists e g1 w1 g2 w2,
    generate_image_from_prompt
      (externals (answering (text_then_image 999)))
      (generator_on (answering (text_then_image 999)))
      empty_world "a cat" "out.png" = (Raise e, g1, w1) /\
    generate_image_from_prompt
      (externals (unreachable "No image generated in response"))
      (generator_on (unreachable "No image generated in response"))
      empty_world "a cat" "out.png" = (Raise e, g2, w2) /\
    exn_type e = RuntimeError.
Proof.
  do 5 eexists.
  split; [vm_compute; reflexivity|].
  split; vm_compute; reflexivity.
Qed.

Lemma attempt_is_charged_whatever_the_outcome_witness :
  (exists cb r w',
      calculate_cost "gemini-2.5-flash-image-preview" "a cat" false = Ok cb /\
      generate_image_from_prompt
        (externals (unreachable "503 Service Unavailable"))
        (generator_on (unreachable "503 Service Unavailable"))
        empty_world "a cat" "out.png"
      = (r, add_cost (generator_on (unreachable "503 Service Unavailable"))
                     (total_cost cb), w')) /\
  (exists cb r w',
      calculate_cost "gemini-2.5-flash-image-preview" "a cat" true = Ok cb /\
      generate_image_with_input
        (externals (unreachable "503 Service Unavailable"))
        (generator_on (unreachable "503 Service Unavailable"))
        empty_world "in.png" "a cat" "out.png"
      = (r, add_cost (generator_on (unreachable "503 Service Unavailable"))
                     (total_cost cb), w')).
Proof.
  exact (attempt_is_charged_whatever_the_outcome
           (externals (unreachable "503 Service Unavailable"))
           (generator_on (unreachable "503 Service Unavailable"))
           empty_world _ "a cat" "out.png" "in.png" eq_refl).
Defined.

(** An attempt that fails, the endpoint being unreachable, leaves the
    session total different from what it was. *)
Lemma failed_attempt_changes_session_total :
  exists e g' w',
    generate_image_from_prompt
      (externals (unreachable "503 Service Unavailable"))
      (generator_on (unreachable "503 Service Unavailable"))
      empty_world "a cat" "out.png" = (Raise e, g', w') /\
    self_total_cost (generator_on (unreachable "503 Service Unavailable")) = fzero /\
    self_total_cost g' <> fzero.
Proof.
  do 3 eexists.
  split; [vm_compute; reflexivity|].
  split; [reflexivity|vm_compute; discriminate].
Qed.

End NoImageExamples.

(** ** The session total behind the web endpoint of app.py *)

Section WebSession.
Import Gen Scenario.

(** C3.  One successful [POST /api/generate] on a fresh process, the
    endpoint answering an image: [generate_image_from_prompt] has added
    the estimate to the session total, and the handler adds it again
    under [# Update session total], so [session_total] is twice the one
    estimate charged and not the sum of the estimates. *)
Theorem web_generation_is_charged_twice :
  exists (image : bytes) (cb : CostBreakdown) (session_total : float)
         (s : App.Server) (g : Generator),
    App.generate_image
      (externals (answering (text_then_image 1001)))
      {| App.generator := None; App.world := empty_world; App.draws := 0 |}
      (Ok [("prompt", "a cat")])
    = (App.Generated image cb session_total, s) /\
    App.generator s = Some g /\
    self_total_cost g = session_total /\
    calculate_cost "gemini-2.5-flash-image-preview" "a cat" false = Ok cb /\
    session_total = fadd (fadd fzero (total_cost cb)) (total_cost cb) /\
    session_total <> fold_left fadd [total_cost cb] fzero.
Proof.
  do 5 eexists.
  split; [vm_compute; reflexivity|].
  split; [reflexivity|].
  split; [reflexivity|].
  split; [reflexivity|].
  split; [vm_compute; reflexivity|].
  vm_compute. discriminate.
Qed.

End WebSession.

(** ** The life of a task in web_api.py *)

Section TaskLife.
Import Gen Scenario.

(** C5.  The worker of a task whose upload cannot be unlinked, the
    endpoint answering an image: the status is set to "completed", then
    [os.remove] raises inside the [try] block and the handler sets the
    status to "error". *)
Theorem completed_task_turns_error :
  exists (st : WebApi.State) (e : exn) (task : WebApi.GenerationTask),
    WebApi.generate_image_background
      (externals (answering (text_then_image 1001)))
      busy_upload 0%nat "key" "gemini-2.5-flash-image-preview" "a cat"
      (Some "uploads/in.png")
    = (st, Some e) /\
    WebApi.status_log st =
      [(0%nat, "initializing"); (0%nat, "generating");
       (0%nat, "completed"); (0%nat, "error")] /\
    WebApi.deref st 0%nat = Some task /\
    WebApi.status task = "error" /\
    WebApi.progress task = 100 /\
    WebApi.result_path task = Some "outputs/generated_t1.png" /\
    dict_get (files (fs (WebApi.world st))) "outputs/generated_t1.png"
    = Some (repeat x89 1001).
Proof.
  do 3 eexists.
  split; [vm_compute; reflexivity|].
  repeat split; vm_compute; reflexivity.
Qed.

(** C7.  Whatever the time of the sweep, hence however long ago the task
    was created, and whatever the task's status, the sweep leaves the
    task in the registry: [hasattr(task, 'created_at')] is false of
    every task, and a terminal task met for the first time is only
    stamped with [finished_at]. *)
Theorem sweep_keeps_task_older_than_one_hour (current_time : float) (status : string) :
  exists st : WebApi.State,
    WebApi.cleanup_old_tasks (one_task status) current_time = Ok st /\
    WebApi.active_tasks st = [("t1", 0%nat)] /\
    dict_get (WebApi.active_tasks st) "t1" = Some 0%nat.
Proof.
  unfold WebApi.cleanup_old_tasks, one_task.
  cbn [WebApi.active_tasks WebApi.sweep_scan WebApi.deref WebApi.heap nth_error
       WebApi.created_at WebApi.finished_at WebApi.status WebApi.set_status
       WebApi.GenerationTask__init__].
  destruct (WebApi.is_terminal status);
    cbn [WebApi.sweep_remove]; eexists; repeat split; reflexivity.
Qed.

End TaskLife.

(** ** An upload the handler does not accept *)

Section IgnoredUpload.
Import Gen.
Variable E : Externals.

Lemma request_and_save_sent (g : Generator) (w : World)
      (contents : list ContentItem) (output_path : string) :
  sent (snd (request_and_save E g w contents output_path))
  = sent w ++ [(self_model g, contents)].
Proof.
  unfold request_and_save.
  destruct (self_client g (self_model g) contents) as [[response|]|e];
    try reflexivity.
  destruct (candidates response); try reflexivity.
  destruct (first_image E response); try reflexivity.
  destruct (write_file _ output_path _); reflexivity.
Qed.

Lemma from_prompt_sent (g : Generator) (w : World) (prompt output_path : string) :
  dict_mem AVAILABLE_MODELS (self_model g) = true ->
  sent (snd (generate_image_from_prompt E g w prompt output_path))
  = sent w ++ [(self_model g, [ItemText prompt])].
Proof.
  unfold dict_mem. intros Hm.
  destruct (dict_get AVAILABLE_MODELS (self_model g)) as [info|] eqn:Hinfo;
    [|discriminate].
  unfold generate_image_from_prompt.
  rewrite (calculate_cost_unfold _ info prompt false Hinfo).
  cbn [total_cost].
  match goal with
  | |- context [request_and_save E ?g' w ?c output_path] =>
      pose proof (request_and_save_sent g' w c output_path) as Hs;
      destruct (request_and_save E g' w c output_path) as [r w']
  end.
  exact Hs.
Qed.

Lemma init_with_key (w : World) (api_key model : string) :
  truthy api_key = true ->
  __init__ E w (Some api_key) model =
  if dict_mem AVAILABLE_MODELS model
  then Ok {| self_client := genai_Client E api_key;
             self_model := model;
             self_total_cost := fzero |}
  else Raise (Exn ValueError ("Model '" ++ model ++
                "' not supported. Available models: " ++ model_keys_repr)).
Proof.
  intros Hkey. unfold __init__. cbn [truthy_opt]. rewrite Hkey.
  cbv beta iota zeta. rewrite Hkey. cbn [negb].
  destruct (dict_mem AVAILABLE_MODELS model); reflexivity.
Qed.

(** The worker of a task without upload asks the endpoint once, for the
    prompt alone, when the model is one of the table, and not at all
    otherwise. *)
Lemma worker_without_input_sends_prompt_alone
      (st : WebApi.State) (task : WebApi.ref) (api_key model prompt : string) :
  truthy api_key = true ->
  sent (WebApi.world
          (fst (WebApi.generate_image_background
                  E st task api_key model prompt None)))
  = sent (WebApi.world st)
    ++ (if dict_mem AVAILABLE_MODELS model
        then [(model, [ItemText prompt])] else []).
Proof.
  intros Hkey.
  unfold WebApi.generate_image_background, WebApi.worker_try.
  rewrite (init_with_key _ api_key model Hkey).
  destruct (dict_mem AVAILABLE_MODELS model) eqn:Hm.
  - cbv beta iota zeta.
    match goal with
    | |- context [generate_image_from_prompt E ?g ?w prompt ?out] =>
        pose proof (from_prompt_sent g w prompt out Hm) as Hs;
        destruct (generate_image_from_prompt E g w prompt out) as [[r g'] w']
    end.
    cbn [snd self_model] in Hs.
    destruct r as [result_path|e]; cbn; exact Hs.
  - cbn. now rewrite app_nil_r.
Qed.

Lemma deref_new_task (h : list WebApi.GenerationTask) (t : WebApi.GenerationTask)
      (d : dict WebApi.ref) (w : World) (n : nat) (l : list (WebApi.ref * string)) :
  WebApi.deref {| WebApi.heap := h ++ [t]; WebApi.active_tasks := d;
                  WebApi.world := w; WebApi.draws := n;
                  WebApi.status_log := l |} (List.length h) = Some t.
Proof.
  unfold WebApi.deref. cbn [WebApi.heap].
  rewrite nth_error_app2 by lia. now rewrite Nat.sub_diag.
Qed.

(** C10.  A [POST /api/generate] with an API key and a prompt, and an
    uploaded [input_image] whose file name is empty or is not an allowed
    file, is accepted: a pending task is created under a new id, which
    is returned, nothing is saved, and the worker is started without
    input path; that worker asks the endpoint for the prompt alone. *)
Theorem disallowed_upload_is_ignored
        (st : WebApi.State) (request : WebApi.Request)
        (api_key prompt : string) (file : WebApi.Upload) :
  let data := if WebApi.is_json request
              then WebApi.json request else WebApi.form request in
  dict_get data "api_key" = Some api_key -> truthy api_key = true ->
  dict_get data "prompt" = Some prompt -> truthy prompt = true ->
  dict_get (WebApi.files request) "input_image" = Some file ->
  WebApi.filename file = "" \/ WebApi.allowed_file (WebApi.filename file) = false ->
  exists (st' : WebApi.State) (args : WebApi.WorkerArgs),
    let task_id := uuid4 E (WebApi.draws st) in
    WebApi.generate_image E st request = (WebApi.Started task_id, st', Some args) /\
    dict_get (WebApi.active_tasks st') task_id = Some (WebApi.arg_task args) /\
    WebApi.deref st' (WebApi.arg_task args)
    = Some (WebApi.GenerationTask__init__ task_id) /\
    WebApi.world st' = WebApi.world st /\
    WebApi.arg_input_file_path args = None /\
    WebApi.arg_prompt args = prompt /\
    forall st1 : WebApi.State,
      sent (WebApi.world (fst (WebApi.run_worker E st1 args)))
      = sent (WebApi.world st1)
        ++ (if dict_mem AVAILABLE_MODELS (WebApi.arg_model args)
            then [(WebApi.arg_model args, [ItemText prompt])] else []).
Proof.
  intros data Hkey Hkey_true Hprompt Hprompt_true Hfile Hname.
  assert (Hupload : WebApi.handle_upload E st (WebApi.files request) = Ok (None, st)).
  { unfold WebApi.handle_upload. rewrite Hfile.
    destruct Hname as [Hname|Hname]; rewrite Hname.
    - reflexivity.
    - now rewrite andb_false_r. }
  unfold WebApi.generate_image. fold data.
  rewrite Hkey, Hprompt, Hkey_true, Hprompt_true, Hupload. cbn [negb].
  eexists. eexists. cbv zeta.
  split; [reflexivity|].
  cbn [WebApi.active_tasks WebApi.arg_task WebApi.world
       WebApi.arg_input_file_path WebApi.arg_prompt WebApi.arg_model].
  split; [apply dict_get_set_same|].
  split; [apply deref_new_task|].
  split; [reflexivity|].
  split; [reflexivity|].
  split; [reflexivity|].
  intros st1. unfold WebApi.run_worker.
  cbn [WebApi.arg_task WebApi.arg_api_key WebApi.arg_model WebApi.arg_prompt
       WebApi.arg_input_file_path].
  now apply worker_without_input_sends_prompt_alone.
Qed.

End IgnoredUpload.

Section IgnoredUploadExamples.
Import Gen Scenario.

Example allowed_file_upper_case : WebApi.allowed_file "photo.PNG" = true.
Proof. reflexivity. Qed.

Example allowed_file_last_extension : WebApi.allowed_file "archive.png.gz" = false.
Proof. reflexivity. Qed.

Example allowed_file_no_dot : WebApi.allowed_file "png" = false.
Proof. reflexivity. Qed.

Example allowed_file_empty : WebApi.allowed_file "" = false.
Proof. reflexivity. Qed.

Lemma disallowed_upload_is_ignored_witness :
  WebApi.allowed_file "notes.txt" = false /\
  exists (st' : WebApi.State) (args : WebApi.WorkerArgs),
    WebApi.generate_image (externals (answering (text_then_image 1001)))
                          fresh_process (form_with_upload "notes.txt")
    = (WebApi.Started "uuid-0", st', Some args) /\
    WebApi.arg_input_file_path args = None /\
    sent (WebApi.world
            (fst (WebApi.run_worker
                    (externals (answering (text_then_image 1001))) st' args)))
    = [("gemini-2.5-flash-image-preview", [ItemText "a cat"])].
Proof.
  split; [reflexivity|].
  destruct (disallowed_upload_is_ignored
              (externals (answering (text_then_image 1001)))
              fresh_process (form_with_upload "notes.txt") "key" "a cat"
              {| WebApi.filename := "notes.txt"; WebApi.content := [x89] |}
              eq_refl eq_refl eq_refl eq_refl eq_refl (or_intror eq_refl))
    as (st' & args & Hreply & _ & _ & Hworld & Hpath & _ & Hsent).
  exists st', args.
  split; [exact Hreply|].
  split; [exact Hpath|].
  rewrite (Hsent st'), Hworld.
  injection Hreply as _ Hargs. rewrite <- Hargs. reflexivity.
Defined.

End IgnoredUploadExamples.

(** ** Checks of the embedding on concrete values *)

Section Checks.
Import Gen Scenario Stated.

(** [(0.00025).hex()] is [0x1.0624dd2f1a9fcp-12]. *)
Example decimal_0_00025 :
  decimal 25 5 = S754_finite false 0x10624dd2f1a9fc (-64).
Proof. vm_compute. reflexivity. Qed.

(** [(0.002734375).hex()] is [0x1.6666666666666p-9]. *)
Example decimal_0_002734375 :
  decimal 2734375 9 = S754_finite false 0x16666666666666 (-61).
Proof. vm_compute. reflexivity. Qed.

(** Dividing the exact integers or their nearest floats is the same below
    [2^53]. *)
Example int_truediv_33_1000 :
  int_truediv 33 1000 = fdiv (of_int 33) (of_int 1000).
Proof. vm_compute. reflexivity. Qed.

Example strip_both_ends : strip "  a cat	 " = "a cat".
Proof. reflexivity. Qed.

Example strip_blank : strip "   " = "".
Proof. reflexivity. Qed.

Example rsplit_last_dot : WebApi.rsplit_dot_1 "a.b.JPG" = Some "JPG".
Proof. reflexivity. Qed.

(** Read as a difference, the statement about the input image is subject
    to rounding: for a prompt of one character the two totals differ by
    one unit in the last place more than [output_cost_per_image]. *)
Remark totals_differ_by_rounded_price :
  exists without_image with_image : CostBreakdown,
    calculate_cost "gemini-2.5-flash-image-preview" "a" false = Ok without_image /\
    calculate_cost "gemini-2.5-flash-image-preview" "a" true = Ok with_image /\
    fsub (total_cost with_image) (total_cost without_image)
    <> decimal 2734375 9.
Proof.
  do 2 eexists. split; [reflexivity|]. split; [reflexivity|].
  vm_compute. discriminate.
Qed.

End Checks.

(** ** The session total on the library path *)

Section SessionTotal.
Import Gen Stated.
Variable E : Externals.

(** After the calls for [prompts], the total is the total before plus the
    estimates of the calls, added in the order of the calls. *)
Lemma session_total_is_running_sum (g : Generator) (w : World)
      (prompts : list string) (output_path : string) :
  dict_mem AVAILABLE_MODELS (self_model g) = true ->
  self_total_cost (fst (generate_each E g w prompts output_path))
  = fold_left fadd (map (estimate (self_model g)) prompts) (self_total_cost g).
Proof.
  unfold dict_mem. intros Hm.
  destruct (dict_get AVAILABLE_MODELS (self_model g)) as [info|] eqn:Hinfo;
    [|discriminate].
  revert g w Hinfo. induction prompts as [|prompt rest IH]; intros g w Hinfo.
  - reflexivity.
  - cbn [generate_each map fold_left].
    pose proof (calculate_cost_unfold _ info prompt false Hinfo) as Hcb.
    destruct (from_prompt_charges E g w _ prompt output_path Hcb) as (r & w' & H).
    rewrite H. rewrite IH by exact Hinfo.
    cbn [fst self_model self_total_cost add_cost].
    assert (Hest : estimate (self_model g) prompt = total_cost _)
      by (unfold estimate; rewrite Hcb; reflexivity).
    rewrite Hest. reflexivity.
Qed.

(** [reset_cost] leaves the total at [0.0]. *)
Lemma reset_cost_zeroes (s : App.Server) (g : Generator) :
  App.generator s = Some g ->
  exists s' g',
    App.reset_cost s = (App.ResetDone fzero, s') /\
    App.generator s' = Some g' /\
    self_total_cost g' = fzero.
Proof.
  intros H. unfold App.reset_cost. rewrite H.
  do 2 eexists. repeat split; reflexivity.
Qed.

End SessionTotal.

(** ** Every successful web generation of app.py *)

Section WebSessionGeneral.
Import Gen Stated.
Variable E : Externals.

Lemma self_total_cost_update_model (g : Generator) (model : string) :
  self_total_cost (App.update_model g model) = self_total_cost g.
Proof.
  unfold App.update_model.
  destruct (negb (String.eqb (self_model g) model)); reflexivity.
Qed.

(** Whenever [POST /api/generate] answers an image, the session total it
    reports is the total before, plus the estimate, plus the estimate
    again. *)
Lemma web_generation_adds_estimate_twice
      (s s' : App.Server) (g : Generator) (body : result (dict string))
      (image : bytes) (cb : CostBreakdown) (session_total : float) :
  App.generator s = Some g ->
  App.generate_image E s body = (App.Generated image cb session_total, s') ->
  session_total
  = fadd (fadd (self_total_cost g) (total_cost cb)) (total_cost cb).
Proof.
  intros Hg. unfold App.generate_image, App.ensure_generator. rewrite Hg.
  destruct body as [data|e]; [|discriminate].
  cbv zeta.
  destruct (negb (truthy (strip (App.get_default data "prompt" ""))));
    [discriminate|].
  destruct (calculate_cost _ _ false) as [cost_info|e] eqn:Hcost; [|discriminate].
  destruct (App.NamedTemporaryFile E (App.world s) (App.draws s))
    as [[tmp_file w]|e]; [|discriminate].
  destruct (from_prompt_charges E _ w cost_info _ tmp_file Hcost) as (r & w' & Hgen).
  rewrite Hgen.
  destruct r as [output_path|e]; [|discriminate].
  destruct (read_file (fs w') output_path) as [image_data|e]; [|discriminate].
  destruct (remove (fs w') output_path) as [fs'|e]; [|discriminate].
  intros [= _ <- <- _].
  cbn [self_total_cost add_cost].
  now rewrite self_total_cost_update_model.
Qed.

End WebSessionGeneral.

(** ** The statuses a worker without upload goes through *)

Section WorkerStatuses.
Import Gen.
Variable E : Externals.

(** Without an upload to clean up, the worker ends in the first terminal
    status it assigns. *)
Lemma worker_without_input_statuses
      (st : WebApi.State) (task : WebApi.ref) (api_key model prompt : string) :
  exists tail : list (WebApi.ref * string),
    WebApi.status_log
      (fst (WebApi.generate_image_background E st task api_key model prompt None))
    = WebApi.status_log st ++ tail /\
    (tail = [(task, "initializing"); (task, "error")] \/
     tail = [(task, "initializing"); (task, "generating"); (task, "error")] \/
     tail = [(task, "initializing"); (task, "generating"); (task, "completed")]).
Proof.
  unfold WebApi.generate_image_background, WebApi.worker_try.
  destruct (__init__ E _ (Some api_key) model) as [generator|e].
  - cbv beta iota zeta.
    match goal with
    | |- context [generate_image_from_prompt E generator ?w prompt ?out] =>
        destruct (generate_image_from_prompt E generator w prompt out) as [[r g'] w']
    end.
    destruct r as [result_path|e]; cbn; rewrite <- !app_assoc; cbn [app];
      eexists; (split; [reflexivity|]); auto.
  - cbn. rewrite <- !app_assoc. cbn [app].
    eexists; (split; [reflexivity|]); auto.
Qed.

End WorkerStatuses.

(** * Further properties of the generator *)

Section GeneratorMore.
Import Gen Stated.
Variable E : Externals.

Lemma dict_get_set_other {V} (d : dict V) (k k' : string) (v : V) :
  k <> k' -> dict_get (dict_set d k v) k' = dict_get d k'.
Proof.
  intros Hne. induction d as [|[k0 v0] d IH]; simpl.
  - destruct (String.eqb k' k) eqn:Hk; [|reflexivity].
    apply String.eqb_eq in Hk. congruence.
  - destruct (String.eqb k k0) eqn:Hk0; simpl.
    + apply String.eqb_eq in Hk0. subst k0.
      destruct (String.eqb k' k) eqn:Hk; [|reflexivity].
      apply String.eqb_eq in Hk. congruence.
    + destruct (String.eqb k' k0); [reflexivity|exact IH].
Qed.

(** What [request_and_save] leaves of the file system: on failure all of
    it, on success all but the output path. *)
Lemma request_and_save_files (g : Generator) (w : World)
      (contents : list ContentItem) (output_path : string) :
  let '(r, w') := request_and_save E g w contents output_path in
  locked (fs w') = locked (fs w) /\
  GEMINI_API_KEY w' = GEMINI_API_KEY w /\
  (forall path, path <> output_path ->
                dict_get (files (fs w')) path = dict_get (files (fs w)) path) /\
  match r with
  | Raise _ => fs w' = fs w
  | Ok p => p = output_path /\ is_locked (fs w) output_path = false
  end.
Proof.
  unfold request_and_save.
  destruct (self_client g (self_model g) contents) as [[response|]|e];
    try (repeat split; reflexivity).
  destruct (candidates response); try (repeat split; reflexivity).
  destruct (first_image E response) as [image|]; try (repeat split; reflexivity).
  unfold write_file. cbn [fs with_sent].
  destruct (is_locked (fs w) output_path) eqn:Hl; try (repeat split; reflexivity).
  cbn [with_fs fs files locked GEMINI_API_KEY].
  repeat split; try reflexivity.
  intros path Hne. apply dict_get_set_other. congruence.
Qed.

(** X1.  A generator is constructed exactly when a non-empty key is
    given, or else found in the environment, and the model is listed; it
    then carries that model and a total of [0.0].  Otherwise the
    constructor raises [ValueError], about the key before the model. *)
Theorem init_succeeds_iff_key_and_listed_model
        (w : World) (api_key : option string) (model : string) :
  let key := if truthy_opt api_key then api_key else GEMINI_API_KEY w in
  match __init__ E w api_key model with
  | Ok g =>
      truthy_opt key = true /\ dict_mem AVAILABLE_MODELS model = true /\
      self_model g = model /\ self_total_cost g = fzero
  | Raise e =>
      exn_type e = ValueError /\
      (truthy_opt key = false \/
       truthy_opt key = true /\ dict_mem AVAILABLE_MODELS model = false) /\
      (truthy_opt key = false ->
       exn_str e = "API key is required. Set GEMINI_API_KEY environment variable or pass api_key parameter")
  end.
Proof.
  intros key. unfold __init__. fold key.
  destruct key as [k|]; cbn [truthy_opt].
  - destruct (truthy k); cbn [negb].
    + destruct (dict_mem AVAILABLE_MODELS model); cbn [negb].
      * repeat split.
      * split; [reflexivity|]. split; [right; split; reflexivity|discriminate].
    + split; [reflexivity|]. split; [left; reflexivity|reflexivity].
  - split; [reflexivity|]. split; [left; reflexivity|reflexivity].
Qed.


(** X3.  With an input path that does not exist, [generate_image_with_input]
    raises [RuntimeError] "Failed to generate image: Image file not found:
    <path>" without asking the endpoint and without touching the file
    system, yet the session total has grown by the estimate. *)
Theorem missing_input_is_charged_without_request
        (g : Generator) (w : World) (info : ModelInfo)
        (input_image_path prompt output_path : string) :
  dict_get AVAILABLE_MODELS (self_model g) = Some info ->
  path_exists (fs w) input_image_path = false ->
  exists cb,
    calculate_cost (self_model g) prompt true = Ok cb /\
    generate_image_with_input E g w input_image_path prompt output_path
    = (Raise (Exn RuntimeError
                  ("Failed to generate image: Image file not found: "
                   ++ input_image_path)),
       add_cost g (total_cost cb), w).
Proof.
  intros Hm Hex.
  eexists. split; [apply (calculate_cost_unfold _ info prompt true Hm)|].
  unfold generate_image_with_input.
  rewrite (calculate_cost_unfold _ info prompt true Hm).
  unfold load_image. rewrite Hex. reflexivity.
Qed.

(** X4.  With an input file that exists, [generate_image_with_input] asks
    the endpoint exactly once, for the bytes of the file first and the
    prompt second; the MIME type sent is one of the five of [format_map],
    and [image/jpeg] when the format is not recognised. *)
Theorem input_image_is_sent_before_prompt
        (g : Generator) (w : World) (info : ModelInfo) (content : bytes)
        (input_image_path prompt output_path : string) :
  dict_get AVAILABLE_MODELS (self_model g) = Some info ->
  dict_get (files (fs w)) input_image_path = Some content ->
  exists mime,
    sent (snd (generate_image_with_input E g w input_image_path prompt output_path))
    = sent w ++ [(self_model g, [ItemBytes content mime; ItemText prompt])] /\
    In mime ["image/jpeg"; "image/png"; "image/gif"; "image/bmp"; "image/webp"] /\
    (image_format E content = None -> mime = "image/jpeg") /\
    (forall fmt, image_format E content = Some fmt ->
                 dict_get format_map fmt = None -> mime = "image/jpeg").
Proof.
  intros Hm Hfile.
  unfold generate_image_with_input.
  rewrite (calculate_cost_unfold _ info prompt true Hm).
  unfold load_image, path_exists, dict_mem, read_file. rewrite Hfile. cbn [negb].
  match goal with
  | |- context [request_and_save E ?g' w [ItemBytes content ?m; ?t] output_path] =>
      exists m;
      pose proof (request_and_save_sent E g' w [ItemBytes content m; t] output_path) as Hs;
      destruct (request_and_save E g' w [ItemBytes content m; t] output_path) as [r w']
  end.
  split; [exact Hs|].
  destruct (image_format E content) as [fmt|].
  - split.
    + unfold format_map. cbn [dict_get].
      repeat (match goal with
              | |- context [if String.eqb fmt ?k then _ else _] =>
                  destruct (String.eqb fmt k)
              end; [cbn; tauto|]).
      cbn; tauto.
    + split; [discriminate|].
      intros fmt' [= <-] Hnone. now rewrite Hnone.
  - split; [cbn; tauto|]. split; [reflexivity|discriminate].
Qed.

End GeneratorMore.

Section ScanOrder.
Import Gen Stated Further.
Variable E : Externals.

Lemma first_some_app {A B} (f : A -> option B) (l1 l2 : list A) :
  first_some f (l1 ++ l2)
  = match first_some f l1 with Some b => Some b | None => first_some f l2 end.
Proof.
  induction l1 as [|a l1 IH]; [reflexivity|].
  cbn [app first_some]. destruct (f a); [reflexivity|exact IH].
Qed.

(** The two nested loops visit the parts of all candidates in order. *)
Lemma first_image_flat (response : Response) :
  first_image E response
  = first_some (part_image E) (flat_map parts (candidates response)).
Proof.
  unfold first_image.
  induction (candidates response) as [|c cs IH]; [reflexivity|].
  cbn [first_some flat_map]. rewrite first_some_app, IH. reflexivity.
Qed.

Lemma part_image_stands_for (part : Part) (image : bytes) :
  stands_for E part image -> part_image E part = Some image.
Proof.
  intros (blob & Hb & Hm & Hl & Hd). unfold part_image.
  rewrite Hb, Hm. apply Nat.ltb_lt in Hl. rewrite Hl. cbn [andb].
  destruct Hd as [Hd|(s & Hd & Hs)]; rewrite Hd; [reflexivity|exact Hs].
Qed.

Lemma first_image_of_first_qualifying
      (response : Response) (before after : list Part) (part : Part)
      (image : bytes) :
  flat_map parts (candidates response) = before ++ part :: after ->
  (forall p, In p before -> ~ qualifies E p) ->
  stands_for E part image ->
  first_image E response = Some image.
Proof.
  intros Hflat Hbefore Hpart.
  rewrite first_image_flat, Hflat, first_some_app.
  rewrite (first_some_none (part_image E) before).
  - cbn [first_some]. now rewrite (part_image_stands_for part image Hpart).
  - intros p Hp. apply part_image_unqualified, Hbefore, Hp.
Qed.

(** X5.  Of all the parts of all the candidates, taken in order, the first
    that qualifies is the one saved: whatever follows it, and whatever
    parts without usable image precede it, the method writes the bytes it
    stands for (decoded from base64 when they arrive as a string) to the
    output path and returns that path. *)
Theorem first_qualifying_part_is_saved
        (g : Generator) (w : World) (info : ModelInfo)
        (prompt output_path : string) (response : Response)
        (before after : list Part) (part : Part) (image : bytes) :
  dict_get AVAILABLE_MODELS (self_model g) = Some info ->
  self_client g (self_model g) [ItemText prompt] = Ok (Some response) ->
  flat_map parts (candidates response) = before ++ part :: after ->
  (forall p, In p before -> ~ qualifies E p) ->
  stands_for E part image ->
  is_locked (fs w) output_path = false ->
  exists g' w',
    generate_image_from_prompt E g w prompt output_path = (Ok output_path, g', w') /\
    dict_get (files (fs w')) output_path = Some image.
Proof.
  intros Hm Hc Hflat Hbefore Hpart Hl.
  pose proof (first_image_of_first_qualifying
                response before after part image Hflat Hbefore Hpart) as Hf.
  unfold generate_image_from_prompt.
  rewrite (calculate_cost_unfold _ info prompt false Hm). cbn [total_cost].
  match goal with
  | |- context [request_and_save E ?g' w ?c output_path] =>
      destruct (request_and_save_found E g' w c output_path response image Hc Hf Hl)
        as (w' & Hr & Hw)
  end.
  rewrite Hr. eexists. eexists. split; [reflexivity|exact Hw].
Qed.

(** X6.  Neither generating method ever changes a file other than the
    output path, and a call that raises has changed no file at all. *)
Theorem generation_touches_only_output_path
        (g : Generator) (w : World)
        (input_image_path prompt output_path : string) :
  (let '(r, _, w') := generate_image_from_prompt E g w prompt output_path in
   (forall path, path <> output_path ->
                 dict_get (files (fs w')) path = dict_get (files (fs w)) path) /\
   match r with Raise _ => fs w' = fs w | Ok p => p = output_path end) /\
  (let '(r, _, w') :=
     generate_image_with_input E g w input_image_path prompt output_path in
   (forall path, path <> output_path ->
                 dict_get (files (fs w')) path = dict_get (files (fs w)) path) /\
   match r with Raise _ => fs w' = fs w | Ok p => p = output_path end).
Proof.
  split.
  - unfold generate_image_from_prompt.
    destruct (calculate_cost (self_model g) prompt false) as [cb|e];
      [|split; reflexivity].
    pose proof (request_and_save_files E (add_cost g (total_cost cb)) w
                  [ItemText prompt] output_path) as H.
    destruct (request_and_save E _ w [ItemText prompt] output_path) as [r w'].
    destruct H as (_ & _ & Hother & Hr).
    split; [exact Hother|].
    destruct r as [p|e]; cbn [wrap_failure]; [apply Hr|exact Hr].
  - unfold generate_image_with_input.
    destruct (calculate_cost (self_model g) prompt true) as [cb|e];
      [|split; reflexivity].
    destruct (load_image E w input_image_path) as [[image_data mime]|e];
      [|split; reflexivity].
    pose proof (request_and_save_files E (add_cost g (total_cost cb)) w
                  [ItemBytes image_data mime; ItemText prompt] output_path) as H.
    destruct (request_and_save E _ w _ output_path) as [r w'].
    destruct H as (_ & _ & Hother & Hr).
    split; [exact Hother|].
    destruct r as [p|e]; cbn [wrap_failure]; [apply Hr|exact Hr].
Qed.

End ScanOrder.

(** * Further properties of the endpoints of app.py *)

Section AppMore.
Import Gen Stated Further.
Variable E : Externals.

Lemma lstrip_blank (s : string) :
  forallb isspace (list_ascii_of_string s) = true -> lstrip s = "".
Proof.
  induction s as [|c s IH]; [reflexivity|].
  cbn [list_ascii_of_string forallb lstrip].
  intros H. apply andb_true_iff in H. destruct H as [Hc Hs].
  rewrite Hc. exact (IH Hs).
Qed.

Lemma strip_blank_is_empty (s : string) :
  forallb isspace (list_ascii_of_string s) = true -> strip s = "".
Proof. intros H. unfold strip. now rewrite (lstrip_blank s H). Qed.



Lemma request_and_save_ok (g : Generator) (w : World)
      (contents : list ContentItem) (output_path : string)
      (response : Response) (image : bytes) :
  self_client g (self_model g) contents = Ok (Some response) ->
  first_image E response = Some image ->
  is_locked (fs w) output_path = false ->
  request_and_save E g w contents output_path
  = (Ok output_path,
     {| fs := {| files := dict_set (files (fs w)) output_path image;
                 locked := locked (fs w) |};
        GEMINI_API_KEY := GEMINI_API_KEY w;
        sent := sent w ++ [(self_model g, contents)] |}).
Proof.
  intros Hc Hf Hl. unfold request_and_save. rewrite Hc.
  destruct (candidates response) as [|c cs] eqn:Hcs.
  - unfold first_image in Hf. rewrite Hcs in Hf. discriminate.
  - rewrite Hf. unfold write_file. cbn [fs with_sent]. rewrite Hl. reflexivity.
Qed.



(** X7.  While no generator exists and [GEMINI_API_KEY] is unset or empty,
    the two generating endpoints answer 500 "Generator not initialized.
    Check GEMINI_API_KEY" and [reset_cost] answers 500 "Generator not
    initialized"; none of them changes the process. *)
Theorem endpoints_without_key_answer_500
        (s : App.Server) (body : result (dict string))
        (form : dict string) (files : dict App.Upload) :
  App.generator s = None ->
  truthy_opt (GEMINI_API_KEY (App.world s)) = false ->
  App.generate_image E s body
  = (App.Failure 500 "Generator not initialized. Check GEMINI_API_KEY", s) /\
  App.generate_with_input E s form files
  = (App.Failure 500 "Generator not initialized. Check GEMINI_API_KEY", s) /\
  App.reset_cost s = (App.Failure 500 "Generator not initialized", s).
Proof.
  intros Hg Hkey.
  unfold App.generate_image, App.generate_with_input, App.reset_cost,
    App.ensure_generator, App.init_generator.
  rewrite Hg, Hkey. cbn [negb]. repeat split; reflexivity.
Qed.

(** X8.  A prompt that is missing, empty or made of white space only is
    refused with 400 "Prompt is required" by both generating endpoints,
    before the model is switched, anything is charged or any file is
    created: the process is unchanged. *)
Theorem blank_prompt_is_refused
        (s : App.Server) (g : Generator) (data : dict string)
        (files : dict App.Upload) :
  App.generator s = Some g ->
  forallb isspace (list_ascii_of_string (App.get_default data "prompt" "")) = true ->
  App.generate_image E s (Ok data) = (App.Failure 400 "Prompt is required", s) /\
  App.generate_with_input E s data files
  = (App.Failure 400 "Prompt is required", s).
Proof.
  intros Hg Hblank.
  unfold App.generate_image, App.generate_with_input, App.ensure_generator.
  rewrite Hg. cbv zeta.
  rewrite (strip_blank_is_empty _ Hblank). split; reflexivity.
Qed.




(** X12.  Whenever [POST /api/generate_with_input] answers an image, the
    session total it reports is the total before the request plus the
    estimate, plus the estimate again. *)
Theorem web_generation_with_input_adds_estimate_twice
        (s s' : App.Server) (g : Generator) (form : dict string)
        (files : dict App.Upload)
        (image : bytes) (cb : CostBreakdown) (session_total : float) :
  App.generator s = Some g ->
  App.generate_with_input E s form files
  = (App.Generated image cb session_total, s') ->
  session_total
  = fadd (fadd (self_total_cost g) (total_cost cb)) (total_cost cb).
Proof.
  intros Hg. unfold App.generate_with_input, App.ensure_generator. rewrite Hg.
  cbv zeta.
  destruct (negb (truthy (strip (App.get_default form "prompt" ""))));
    [discriminate|].
  destruct (dict_get files "image") as [file|]; [|discriminate].
  destruct (String.eqb (App.filename file) ""); [discriminate|].
  destruct (calculate_cost _ _ true) as [cost_info|e] eqn:Hcost; [|discriminate].
  destruct (App.NamedTemporaryFile E (App.world s) (App.draws s))
    as [[input_tmp w]|e]; [|discriminate].
  destruct (write_file (fs w) input_tmp (App.content file)) as [fs1|e];
    [|discriminate].
  destruct (App.NamedTemporaryFile E (with_fs w fs1) (S (App.draws s)))
    as [[output_tmp w2]|e]; [|discriminate].
  destruct (with_input_charges E _ w2 cost_info input_tmp _ output_tmp Hcost)
    as (r & w' & Hgen).
  rewrite Hgen.
  destruct r as [output_path|e]; [|discriminate].
  destruct (read_file (fs w') output_path) as [image_data|e]; [|discriminate].
  destruct (remove (fs w') input_tmp) as [fs2|e]; [|discriminate].
  destruct (remove fs2 output_path) as [fs3|e]; [|discriminate].
  intros [= _ <- <- _].
  cbn [self_total_cost add_cost].
  now rewrite self_total_cost_update_model.
Qed.

End AppMore.

(** * Further properties of the task API of web_api.py *)

Section HeapFacts.
Import Gen Further WebApi.

Lemma nth_error_list_update_same {A} (l : list A) (i : nat) (f : A -> A) :
  nth_error (list_update l i f) i = option_map f (nth_error l i).
Proof.
  revert i. induction l as [|a l IH]; intros [|i]; cbn; try reflexivity.
  apply IH.
Qed.

Lemma nth_error_list_update_other {A} (l : list A) (i j : nat) (f : A -> A) :
  i <> j -> nth_error (list_update l i f) j = nth_error l j.
Proof.
  revert i j. induction l as [|a l IH]; intros [|i] [|j] H; cbn;
    try reflexivity; try congruence.
  apply IH. congruence.
Qed.

Lemma length_list_update {A} (l : list A) (i : nat) (f : A -> A) :
  List.length (list_update l i f) = List.length l.
Proof.
  revert i. induction l as [|a l IH]; intros [|i]; cbn; try reflexivity.
  now rewrite IH.
Qed.

Lemma deref_modify_same (st : State) (r : ref) (f : GenerationTask -> GenerationTask) :
  deref (modify st r f) r = option_map f (deref st r).
Proof. apply nth_error_list_update_same. Qed.

Lemma deref_assign_status_same (st : State) (r : ref) (v : string) :
  deref (assign_status st r v) r = option_map (fun t => set_status t v) (deref st r).
Proof. apply nth_error_list_update_same. Qed.

Lemma deref_with_world (st : State) (w : World) (r : ref) :
  deref (with_world st w) r = deref st r.
Proof. reflexivity. Qed.

Lemma only_task_changed_refl (task : ref) (st : State) :
  only_task_changed task st st.
Proof. repeat split. Qed.

Lemma only_task_changed_trans (task : ref) (st1 st2 st3 : State) :
  only_task_changed task st1 st2 -> only_task_changed task st2 st3 ->
  only_task_changed task st1 st3.
Proof.
  intros (Ha & Hd & Hl & Ho) (Ha' & Hd' & Hl' & Ho').
  repeat split; try congruence.
  intros r Hr. rewrite (Ho' r Hr). exact (Ho r Hr).
Qed.

Lemma only_task_changed_modify (task : ref) (st : State)
      (f : GenerationTask -> GenerationTask) :
  only_task_changed task st (modify st task f).
Proof.
  repeat split; cbn [modify heap].
  - apply length_list_update.
  - intros r Hr. unfold deref. cbn [heap].
    apply nth_error_list_update_other. congruence.
Qed.

Lemma only_task_changed_assign_status (task : ref) (st : State) (v : string) :
  only_task_changed task st (assign_status st task v).
Proof.
  repeat split; cbn [assign_status heap].
  - apply length_list_update.
  - intros r Hr. unfold deref. cbn [heap].
    apply nth_error_list_update_other. congruence.
Qed.

Lemma only_task_changed_with_world (task : ref) (st : State) (w : World) :
  only_task_changed task st (with_world st w).
Proof. repeat split. Qed.

End HeapFacts.

Create HintDb frame.

#[local] Hint Resolve only_task_changed_refl only_task_changed_modify
  only_task_changed_assign_status only_task_changed_with_world : frame.

Section WorkerMore.
Import Gen Stated Further WebApi.
Variable E : Externals.

Ltac frame_step :=
  eapply only_task_changed_trans;
  [|first [apply only_task_changed_modify
          |apply only_task_changed_assign_status
          |apply only_task_changed_with_world]].

Lemma remove_input_frame (task : ref) (st st' : State) (p : option string) :
  remove_input st p = Ok st' -> only_task_changed task st st'.
Proof.
  unfold remove_input. destruct p as [p|]; [|intros [= <-]; auto with frame].
  destruct (input_present st (Some p)); [|intros [= <-]; auto with frame].
  destruct (remove _ p); [|discriminate].
  intros [= <-]. auto with frame.
Qed.

Lemma remove_input_heap (st st' : State) (p : option string) :
  remove_input st p = Ok st' ->
  heap st' = heap st /\ status_log st' = status_log st.
Proof.
  unfold remove_input. destruct p as [p|]; [|intros [= <-]; split; reflexivity].
  destruct (input_present st (Some p)); [|intros [= <-]; split; reflexivity].
  destruct (remove _ p); [|discriminate].
  intros [= <-]. split; reflexivity.
Qed.

(** The try block reaches its state by writes to the task and to the
    world only. *)
Lemma worker_try_frame (st : State) (task : ref)
      (api_key model prompt : string) (input_file_path : option string) :
  only_task_changed task st
    (fst (worker_try E st task api_key model prompt input_file_path)).
Proof.
  unfold worker_try.
  destruct (__init__ E _ (Some api_key) model) as [generator|e].
  - cbv beta zeta.
    match goal with
    | |- context [let '(r, st) := ?branch in _] =>
        assert (Hb : only_task_changed task st (snd branch));
        [|destruct branch as [r st1]]
    end.
    { destruct input_file_path as [p|].
      - destruct (input_present _ (Some p)).
        + destruct (generate_image_with_input E generator _ p prompt _)
            as [[r g'] w'].
          cbn [snd]. repeat frame_step. auto with frame.
        + destruct (generate_image_from_prompt E generator _ prompt _)
            as [[r g'] w'].
          cbn [snd]. repeat frame_step. auto with frame.
      - destruct (generate_image_from_prompt E generator _ prompt _)
          as [[r g'] w'].
        cbn [snd]. repeat frame_step. auto with frame. }
    cbn [snd] in Hb.
    destruct r as [result_path|e]; [|exact Hb].
    destruct (remove_input _ input_file_path) as [st2|e] eqn:Hrm; cbn [fst].
    + eapply only_task_changed_trans; [|apply (remove_input_frame _ _ _ _ Hrm)].
      repeat frame_step. exact Hb.
    + repeat frame_step. exact Hb.
  - cbn [fst]. repeat frame_step. auto with frame.
Qed.

(** X13.  A worker writes to its own task object and to the world only:
    the registry, the other task objects and the number of objects are
    what they were, whatever the worker meets. *)
Theorem worker_changes_only_its_task
        (st : State) (task : ref) (api_key model prompt : string)
        (input_file_path : option string) :
  let st' := fst (generate_image_background E st task api_key model prompt
                                            input_file_path) in
  active_tasks st' = active_tasks st /\
  List.length (heap st') = List.length (heap st) /\
  forall r, r <> task -> deref st' r = deref st r.
Proof.
  intros st'.
  assert (H : only_task_changed task st st').
  { subst st'. unfold generate_image_background.
    pose proof (worker_try_frame st task api_key model prompt input_file_path) as Ht.
    destruct (worker_try E st task api_key model prompt input_file_path)
      as [st1 [e|]]; cbn [fst] in *; [|exact Ht].
    destruct (remove_input _ input_file_path) as [st2|e'] eqn:Hrm; cbn [fst].
    - eapply only_task_changed_trans; [|apply (remove_input_frame _ _ _ _ Hrm)].
      repeat frame_step. exact Ht.
    - repeat frame_step. exact Ht. }
  destruct H as (Ha & _ & Hl & Ho). repeat split; assumption.
Qed.

End WorkerMore.

Section ResultPath.
Import Gen.
Variable E : Externals.

Lemma from_prompt_result_path (g : Generator) (w : World)
      (prompt output_path p : string) :
  fst (fst (generate_image_from_prompt E g w prompt output_path)) = Ok p ->
  p = output_path.
Proof.
  unfold generate_image_from_prompt.
  destruct (calculate_cost (self_model g) prompt false) as [cb|e]; [|discriminate].
  pose proof (request_and_save_files E (add_cost g (total_cost cb)) w
                [ItemText prompt] output_path) as H.
  destruct (request_and_save E _ w [ItemText prompt] output_path) as [r w'].
  destruct H as (_ & _ & _ & Hr).
  destruct r as [q|e]; cbn; [|discriminate].
  intros [= <-]. apply Hr.
Qed.

Lemma with_input_result_path (g : Generator) (w : World)
      (input_image_path prompt output_path p : string) :
  fst (fst (generate_image_with_input E g w input_image_path prompt output_path))
  = Ok p ->
  p = output_path.
Proof.
  unfold generate_image_with_input.
  destruct (calculate_cost (self_model g) prompt true) as [cb|e]; [|discriminate].
  destruct (load_image E w input_image_path) as [[image_data mime]|e];
    [|discriminate].
  pose proof (request_and_save_files E (add_cost g (total_cost cb)) w
                [ItemBytes image_data mime; ItemText prompt] output_path) as H.
  destruct (request_and_save E _ w _ output_path) as [r w'].
  destruct H as (_ & _ & _ & Hr).
  destruct r as [q|e]; cbn; [|discriminate].
  intros [= <-]. apply Hr.
Qed.

End ResultPath.

Section WorkerOutcome.
Import Gen Stated Further WebApi.
Variable E : Externals.

Lemma deref_remove_input (st st' : State) (p : option string) (r : ref) :
  remove_input st p = Ok st' -> deref st' r = deref st r.
Proof.
  intros H. unfold deref. now rewrite (proj1 (remove_input_heap st st' p H)).
Qed.

Ltac task_simpl :=
  repeat first [rewrite deref_modify_same
               |rewrite deref_assign_status_same
               |rewrite deref_with_world].

(** The object of the task when the try block has run: completed with its
    result, or stopped by an exception with progress and message as they
    stood. *)
Lemma worker_try_task (st : State) (task : ref) (t : GenerationTask)
      (api_key model prompt : string) (input_file_path : option string) :
  deref st task = Some t ->
  let '(st', stopped) :=
    worker_try E st task api_key model prompt input_file_path in
  exists t',
    deref st' task = Some t' /\
    task_id t' = task_id t /\ error t' = error t /\
    (stopped = None ->
     status t' = "completed" /\ progress t' = 100 /\
     message t' = "Image generated successfully!" /\
     result_path t' =
       Some (path_join OUTPUT_FOLDER ("generated_" ++ task_id t ++ ".png"))) /\
    (status t' = "completed" -> progress t' = 100 /\ result_path t' <> None).
Proof.
  intros Ht. unfold worker_try.
  destruct (__init__ E _ (Some api_key) model) as [generator|e].
  - cbv beta zeta.
    match goal with
    | |- context [let '(r, st) := ?branch in _] =>
        assert (Hb : exists m,
                   deref (snd branch) task
                   = Some (set_message
                             (set_message
                                (set_progress
                                   (set_status
                                      (set_message
                                         (set_progress
                                            (set_status t "initializing") 10)
                                         "Initializing generator...")
                                      "generating") 30)
                                "Generating image...") m) /\
                   (forall p, fst branch = Ok p ->
                              p = path_join OUTPUT_FOLDER
                                    ("generated_" ++ task_id t ++ ".png")));
        [|destruct branch as [r st1]]
    end.
    { assert (Hid : forall st0,
                 deref st0 task
                 = Some (set_message
                           (set_progress
                              (set_status
                                 (set_message
                                    (set_progress
                                       (set_status t "initializing") 10)
                                    "Initializing generator...")
                                 "generating") 30)
                           "Generating image...") ->
                 task_id_of st0 task = task_id t)
        by (intros st0 H0; unfold task_id_of; now rewrite H0).
      match goal with
      | |- context [task_id_of ?st0 task] =>
          rewrite (Hid st0) by (task_simpl; now rewrite Ht)
      end.
      destruct input_file_path as [p|].
      - destruct (input_present _ (Some p)).
        + match goal with
          | |- context [generate_image_with_input E generator ?w0 p prompt ?out] =>
              pose proof (with_input_result_path E generator w0 p prompt out) as Hout;
              destruct (generate_image_with_input E generator w0 p prompt out)
                as [[r g'] w']
          end.
          eexists. cbn [snd fst] in *. task_simpl. rewrite Ht.
          split; [reflexivity|exact Hout].
        + match goal with
          | |- context [generate_image_from_prompt E generator ?w0 prompt ?out] =>
              pose proof (from_prompt_result_path E generator w0 prompt out) as Hout;
              destruct (generate_image_from_prompt E generator w0 prompt out)
                as [[r g'] w']
          end.
          eexists. cbn [snd fst] in *. task_simpl. rewrite Ht.
          split; [reflexivity|exact Hout].
      - match goal with
        | |- context [generate_image_from_prompt E generator ?w0 prompt ?out] =>
            pose proof (from_prompt_result_path E generator w0 prompt out) as Hout;
            destruct (generate_image_from_prompt E generator w0 prompt out)
              as [[r g'] w']
        end.
        eexists. cbn [snd fst] in *. task_simpl. rewrite Ht.
        split; [reflexivity|exact Hout]. }
    destruct Hb as (m & Hb & Hpath). cbn [snd fst] in Hb, Hpath.
    destruct r as [result_path|e].
    + rewrite (Hpath result_path eq_refl).
      destruct (remove_input _ input_file_path) as [st2|e] eqn:Hrm.
      * eexists. rewrite (deref_remove_input _ _ _ task Hrm).
        task_simpl. rewrite Hb.
        split; [reflexivity|]. cbn. repeat split; try reflexivity; discriminate.
      * eexists. task_simpl. rewrite Hb.
        split; [reflexivity|]. cbn.
        repeat split; try reflexivity; discriminate.
    + eexists. split; [exact Hb|]. cbn.
      repeat split; try discriminate.
  - eexists. task_simpl. rewrite Ht.
    split; [reflexivity|]. cbn. repeat split; try discriminate.
Qed.

(** X14.  Whatever happens, the worker leaves its task in a terminal
    status, under the id it had: either "completed", with progress 100 and
    a result path, or "error", with the text of the exception in [error]
    and "Error: <text>" as message. *)
Theorem worker_leaves_task_terminal
        (st : State) (task : ref) (t : GenerationTask)
        (api_key model prompt : string) (input_file_path : option string) :
  deref st task = Some t ->
  exists t',
    deref (fst (generate_image_background E st task api_key model prompt
                                          input_file_path)) task = Some t' /\
    task_id t' = task_id t /\
    ((status t' = "completed" /\ progress t' = 100 /\ result_path t' <> None) \/
     (status t' = "error" /\
      exists text, error t' = Some text /\ message t' = ("Error: " ++ text)%string)).
Proof.
  intros Ht. unfold generate_image_background.
  pose proof (worker_try_task st task t api_key model prompt input_file_path Ht) as H.
  destruct (worker_try E st task api_key model prompt input_file_path)
    as [st1 [e|]].
  - destruct H as (t1 & Ht1 & Hid & _).
    destruct (remove_input _ input_file_path) as [st2|e'] eqn:Hrm; cbn [fst].
    + eexists. rewrite (deref_remove_input _ _ _ task Hrm).
      task_simpl. rewrite Ht1.
      split; [reflexivity|]. split; [exact Hid|].
      right. split; [reflexivity|]. eexists. split; reflexivity.
    + eexists. task_simpl. rewrite Ht1.
      split; [reflexivity|]. split; [exact Hid|].
      right. split; [reflexivity|]. eexists. split; reflexivity.
  - destruct H as (t1 & Ht1 & Hid & _ & Hdone & _). cbn [fst].
    exists t1. split; [exact Ht1|]. split; [exact Hid|].
    left. destruct (Hdone eq_refl) as (Hs & Hp & _ & Hr).
    repeat split; try assumption. rewrite Hr. discriminate.
Qed.

End WorkerOutcome.

Section DictFacts.

Lemma dict_get_none_notin {V} (d : dict V) (k : string) :
  dict_get d k = None <-> ~ In k (map fst d).
Proof.
  induction d as [|[k0 v0] d IH]; cbn.
  - tauto.
  - destruct (String.eqb k k0) eqn:Hk.
    + apply String.eqb_eq in Hk. subst k0. split; [discriminate|tauto].
    + apply String.eqb_neq in Hk. rewrite IH. split.
      * intros H [H0|H0]; [congruence|tauto].
      * tauto.
Qed.

Lemma dict_get_del_other {V} (d : dict V) (k k' : string) :
  k <> k' -> dict_get (dict_del d k) k' = dict_get d k'.
Proof.
  intros Hne. induction d as [|[k0 v0] d IH]; cbn; [reflexivity|].
  destruct (String.eqb k k0) eqn:Hk.
  - apply String.eqb_eq in Hk. subst k0.
    destruct (String.eqb k' k) eqn:Hk'; [|reflexivity].
    apply String.eqb_eq in Hk'. congruence.
  - cbn. destruct (String.eqb k' k0); [reflexivity|exact IH].
Qed.

Lemma dict_get_del_same {V} (d : dict V) (k : string) :
  Further.unique_keys d -> dict_get (dict_del d k) k = None.
Proof.
  unfold Further.unique_keys.
  induction d as [|[k0 v0] d IH]; cbn; [reflexivity|].
  intros Hnd. inversion Hnd as [|? ? Hnotin Hnd']; subst.
  destruct (String.eqb k k0) eqn:Hk.
  - apply String.eqb_eq in Hk. subst k0. now apply dict_get_none_notin.
  - cbn. rewrite Hk. exact (IH Hnd').
Qed.

Lemma in_keys_dict_set {V} (d : dict V) (k k' : string) (v : V) :
  In k' (map fst (dict_set d k v)) <-> In k' (map fst d) \/ k' = k.
Proof.
  induction d as [|[k0 v0] d IH]; cbn.
  - intuition congruence.
  - destruct (String.eqb k k0) eqn:Hk; cbn.
    + apply String.eqb_eq in Hk. subst k0. intuition congruence.
    + rewrite IH. tauto.
Qed.

Lemma dict_set_unique {V} (d : dict V) (k : string) (v : V) :
  Further.unique_keys d -> Further.unique_keys (dict_set d k v).
Proof.
  unfold Further.unique_keys.
  induction d as [|[k0 v0] d IH]; cbn; intros Hnd.
  - constructor; [tauto|constructor].
  - inversion Hnd as [|? ? Hnotin Hnd']; subst.
    destruct (String.eqb k k0) eqn:Hk; cbn.
    + apply String.eqb_eq in Hk. subst k0. now constructor.
    + apply String.eqb_neq in Hk. constructor; [|exact (IH Hnd')].
      rewrite in_keys_dict_set. intros [H|H]; [tauto|congruence].
Qed.

Lemma in_keys_dict_del {V} (d : dict V) (k k' : string) :
  In k' (map fst (dict_del d k)) -> In k' (map fst d).
Proof.
  induction d as [|[k0 v0] d IH]; cbn; [tauto|].
  destruct (String.eqb k k0); cbn; tauto.
Qed.

Lemma dict_del_unique {V} (d : dict V) (k : string) :
  Further.unique_keys d -> Further.unique_keys (dict_del d k).
Proof.
  unfold Further.unique_keys.
  induction d as [|[k0 v0] d IH]; cbn; intros Hnd; [constructor|].
  inversion Hnd as [|? ? Hnotin Hnd']; subst.
  destruct (String.eqb k k0); cbn; [exact Hnd'|].
  constructor; [|exact (IH Hnd')].
  intros H. apply Hnotin. eapply in_keys_dict_del. exact H.
Qed.

Lemma dict_get_in {V} (d : dict V) (k : string) (v v' : V) :
  Further.unique_keys d -> In (k, v) d -> dict_get d k = Some v' -> v = v'.
Proof.
  unfold Further.unique_keys.
  induction d as [|[k0 v0] d IH]; cbn; [tauto|].
  intros Hnd Hin Hget. inversion Hnd as [|? ? Hnotin Hnd']; subst.
  destruct (String.eqb k k0) eqn:Hk.
  - apply String.eqb_eq in Hk. subst k0. injection Hget as <-.
    destruct Hin as [[= ->]|Hin]; [reflexivity|].
    exfalso. apply Hnotin. change k with (fst (k, v)). now apply in_map.
  - apply String.eqb_neq in Hk.
    destruct Hin as [[= -> ->]|Hin]; [congruence|].
    exact (IH Hnd' Hin Hget).
Qed.

End DictFacts.

Section HandlerMore.
Import Gen Stated Further WebApi WebApiRoutes.
Variable E : Externals.

(** X15.  [POST /api/generate] answers 400 exactly when the API key or the
    prompt is missing or empty, naming the key first; it then registers
    nothing, saves nothing and starts no worker.  A prompt is not
    stripped here: white space counts as a prompt. *)
Theorem handler_refuses_missing_key_or_prompt (st : State) (request : Request) :
  let data := if is_json request then json request else form request in
  let key := truthy_opt (dict_get data "api_key") in
  let prompt := truthy_opt (dict_get data "prompt") in
  (key = false ->
   generate_image E st request = (Failure 400 "API key is required", st, None)) /\
  (key = true -> prompt = false ->
   generate_image E st request = (Failure 400 "Prompt is required", st, None)) /\
  (key = true -> prompt = true ->
   forall error, fst (fst (generate_image E st request)) <> Failure 400 error).
Proof.
  intros data key prompt. subst key prompt.
  unfold generate_image. fold data.
  destruct (dict_get data "api_key") as [k|]; cbn [truthy_opt];
    [destruct (truthy k); cbn [negb];
     [destruct (dict_get data "prompt") as [p|]; cbn [truthy_opt];
      [destruct (truthy p); cbn [negb]|]|]|];
    (split; [intros H; try discriminate H; reflexivity|]);
    (split; [intros H1 H2; try discriminate H1; try discriminate H2; reflexivity|]);
    intros H1 H2; try discriminate H1; try discriminate H2.
  intros error.
  destruct (handle_upload E st (files request)) as [[path st1]|e];
    cbn; discriminate.
Qed.

(** X16.  An upload whose file name is allowed is saved, before the task is
    created, under [uploads/<uuid>_<secure name>]; the worker is started
    on that path and the task id is the next identifier drawn. *)
Theorem allowed_upload_is_saved
        (st : State) (request : Request) (key prompt : string) (file : Upload) :
  let data := if is_json request then json request else form request in
  let path := path_join UPLOAD_FOLDER
                (uuid4 E (draws st) ++ "_" ++ secure_filename E (filename file)) in
  dict_get data "api_key" = Some key -> truthy key = true ->
  dict_get data "prompt" = Some prompt -> truthy prompt = true ->
  dict_get (files request) "input_image" = Some file ->
  allowed_file (filename file) = true ->
  truthy (filename file) = true ->
  is_locked (fs (world st)) path = false ->
  exists (st' : State) (args : WorkerArgs),
    generate_image E st request
    = (Started (uuid4 E (S (draws st))), st', Some args) /\
    arg_input_file_path args = Some path /\
    dict_get (Os.files (fs (world st'))) path = Some (content file) /\
    dict_get (active_tasks st') (uuid4 E (S (draws st))) = Some (arg_task args).
Proof.
  intros data path Hkey Hkey_true Hprompt Hprompt_true Hfile Hallowed Hname Hl.
  unfold generate_image. fold data.
  rewrite Hkey, Hprompt, Hkey_true, Hprompt_true. cbn [negb].
  unfold handle_upload. rewrite Hfile, Hname, Hallowed. cbn [andb].
  fold path. unfold write_file. rewrite Hl.
  eexists. eexists. cbv zeta.
  split; [reflexivity|].
  cbn [arg_input_file_path arg_task active_tasks world draws with_fs fs Os.files].
  split; [reflexivity|].
  split; apply dict_get_set_same.
Qed.

(** X17.  Right after a request was accepted, its task polls as "pending"
    with progress 0 and message "Task created", without links and without
    error, and its image cannot be fetched yet: 400 "Image not ready". *)
Theorem accepted_task_polls_pending
        (st st' : State) (request : Request) (id : string)
        (args : option WorkerArgs) :
  generate_image E st request = (Started id, st', args) ->
  get_task_status st' id
  = StatusOk {| body_task_id := id; body_status := "pending";
                body_progress := 0; body_message := "Task created";
                download_url := None; preview_url := None;
                body_error := None |} /\
  download_image st' id = FileError 400 "Image not ready" /\
  preview_image st' id = FileError 400 "Image not ready".
Proof.
  unfold generate_image.
  destruct (dict_get _ "api_key") as [k|]; [|discriminate].
  destruct (negb (truthy k)); [discriminate|].
  destruct (dict_get _ "prompt") as [p|]; [|discriminate].
  destruct (negb (truthy p)); [discriminate|].
  destruct (handle_upload E st (files request)) as [[path st1]|e]; [|discriminate].
  cbv zeta. intros [= <- <- _].
  unfold get_task_status, download_image, preview_image, send_result.
  cbn [active_tasks]. rewrite dict_get_set_same, deref_new_task.
  repeat split; reflexivity.
Qed.

Lemma unknown_task_is_not_found (st : State) (id : string) :
  dict_get (active_tasks st) id = None ->
  get_task_status st id = StatusNotFound "Task not found" /\
  download_image st id = FileError 404 "Task not found" /\
  preview_image st id = FileError 404 "Task not found" /\
  cleanup_task st id = (CleanupNotFound, st).
Proof.
  intros H.
  unfold get_task_status, download_image, preview_image, send_result, cleanup_task.
  rewrite H. repeat split; reflexivity.
Qed.

Lemma remove_result_heap (st st' : State) (task : GenerationTask) :
  remove_result st task = Ok st' ->
  heap st' = heap st /\ active_tasks st' = active_tasks st.
Proof.
  unfold remove_result.
  destruct (result_path task) as [p|]; [|intros [= <-]; split; reflexivity].
  destruct (truthy p && path_exists (fs (world st)) p);
    [|intros [= <-]; split; reflexivity].
  destruct (remove _ p); [|discriminate].
  intros [= <-]. split; reflexivity.
Qed.

(** X18.  Once [DELETE /api/cleanup/<id>] has answered success, the id is
    unknown to every route (404 "Task not found"), a second clean-up
    included, while every other task polls as before. *)
Theorem cleaned_task_is_unknown (st st' : State) (id : string) :
  unique_keys (active_tasks st) ->
  cleanup_task st id = (CleanedUp, st') ->
  get_task_status st' id = StatusNotFound "Task not found" /\
  download_image st' id = FileError 404 "Task not found" /\
  preview_image st' id = FileError 404 "Task not found" /\
  cleanup_task st' id = (CleanupNotFound, st') /\
  forall other, other <> id ->
                get_task_status st' other = get_task_status st other.
Proof.
  intros Hu. unfold cleanup_task.
  destruct (dict_get (active_tasks st) id) as [r|] eqn:Hid; [|discriminate].
  match goal with
  | |- context [match ?x with Ok _ => _ | Raise _ => _ end] =>
      destruct x as [st1|e] eqn:Hrm
  end; [|discriminate].
  intros [= <-].
  assert (Hh : heap st1 = heap st /\ active_tasks st1 = active_tasks st).
  { destruct (deref st r) as [task|].
    - exact (remove_result_heap _ _ _ Hrm).
    - injection Hrm as <-. split; reflexivity. }
  destruct Hh as [Hheap Hact].
  assert (Hgone : dict_get (active_tasks
                    (with_active_tasks st1 (dict_del (active_tasks st1) id))) id
                  = None)
    by (cbn [active_tasks with_active_tasks]; rewrite Hact;
        now apply dict_get_del_same).
  destruct (unknown_task_is_not_found _ id Hgone) as (H1 & H2 & H3 & H4).
  repeat split; try assumption.
  intros other Hother. unfold get_task_status, deref.
  cbn [active_tasks with_active_tasks heap].
  rewrite Hact, Hheap, dict_get_del_other by congruence. reflexivity.
Qed.

End HandlerMore.

Section EndToEnd.
Import Gen Stated Further WebApi WebApiRoutes.
Variable E : Externals.

Lemma from_prompt_ok (g : Generator) (w : World) (info : ModelInfo)
      (prompt output_path : string) (response : Response) (image : bytes) :
  dict_get AVAILABLE_MODELS (self_model g) = Some info ->
  self_client g (self_model g) [ItemText prompt] = Ok (Some response) ->
  first_image E response = Some image ->
  is_locked (fs w) output_path = false ->
  exists g',
    generate_image_from_prompt E g w prompt output_path
    = (Ok output_path, g',
       {| fs := {| Os.files := dict_set (Os.files (fs w)) output_path image;
                   locked := locked (fs w) |};
          GEMINI_API_KEY := GEMINI_API_KEY w;
          sent := sent w ++ [(self_model g, [ItemText prompt])] |}).
Proof.
  intros Hm Hc Hf Hl. unfold generate_image_from_prompt.
  rewrite (calculate_cost_unfold _ info prompt false Hm). cbn [total_cost].
  rewrite (request_and_save_ok E _ _ _ _ response image); try assumption.
  eexists. reflexivity.
Qed.

(** X19.  From request to download: when a request with key and prompt and
    without upload names a listed model, and the endpoint answers a
    response whose first qualifying part stands for [image], the handler
    returns a task id, the worker ends without exception, the task then
    polls as "completed" at 100 with its download and preview links, and
    both links deliver exactly [image] from
    [outputs/generated_<id>.png]. *)
Theorem accepted_prompt_ends_in_download
        (st : State) (request : Request) (info : ModelInfo)
        (key prompt : string) (response : Response)
        (before after : list Part) (part : Part) (image : bytes) :
  let data := if is_json request then json request else form request in
  let id := uuid4 E (draws st) in
  let out := path_join OUTPUT_FOLDER ("generated_" ++ id ++ ".png") in
  dict_get data "api_key" = Some key -> truthy key = true ->
  dict_get data "prompt" = Some prompt -> truthy prompt = true ->
  dict_get (files request) "input_image" = None ->
  dict_get AVAILABLE_MODELS (get_model data) = Some info ->
  genai_Client E key (get_model data) [ItemText prompt] = Ok (Some response) ->
  flat_map parts (candidates response) = before ++ part :: after ->
  (forall p, In p before -> ~ qualifies E p) ->
  stands_for E part image ->
  is_locked (fs (world st)) out = false ->
  exists (st1 st2 : State) (args : WorkerArgs),
    generate_image E st request = (Started id, st1, Some args) /\
    run_worker E st1 args = (st2, None) /\
    get_task_status st2 id
    = StatusOk {| body_task_id := id; body_status := "completed";
                  body_progress := 100;
                  body_message := "Image generated successfully!";
                  download_url := Some ("/api/download/" ++ id)%string;
                  preview_url := Some ("/api/preview/" ++ id)%string;
                  body_error := None |} /\
    download_image st2 id = SendFile out image true /\
    preview_image st2 id = SendFile out image false.
Proof.
  intros data id out Hkey Hkey_true Hprompt Hprompt_true Hfile Hm Hc
         Hflat Hbefore Hpart Hl.
  pose proof (first_image_of_first_qualifying E
                response before after part image Hflat Hbefore Hpart) as Hf.
  unfold generate_image. fold data.
  rewrite Hkey, Hprompt, Hkey_true, Hprompt_true. cbn [negb].
  unfold handle_upload. rewrite Hfile. cbv zeta. fold id.
  eexists. eexists. eexists.
  split; [reflexivity|].
  unfold run_worker.
  cbn [arg_task arg_api_key arg_model arg_prompt arg_input_file_path].
  unfold generate_image_background, worker_try.
  rewrite (init_with_key E _ key (get_model data) Hkey_true).
  assert (Hmem : dict_mem AVAILABLE_MODELS (get_model data) = true)
    by (unfold dict_mem; now rewrite Hm).
  rewrite Hmem. cbv beta iota zeta.
  match goal with
  | |- context [task_id_of ?st0 ?r] =>
      assert (Hid : task_id_of st0 r = id)
  end.
  { unfold task_id_of.
    rewrite !deref_modify_same, deref_assign_status_same, !deref_modify_same,
      deref_assign_status_same, deref_new_task. reflexivity. }
  rewrite Hid. fold out.
  cbn [world modify assign_status].
  destruct (from_prompt_ok
              {| self_client := genai_Client E key;
                 self_model := get_model data;
                 self_total_cost := fzero |}
              (world st) info prompt out response image Hm Hc Hf Hl)
    as (g' & Hgen).
  rewrite Hgen. cbn [remove_input].
  split; [reflexivity|].
  unfold get_task_status, download_image, preview_image, send_result.
  cbn [active_tasks modify assign_status with_world].
  rewrite dict_get_set_same.
  rewrite !deref_modify_same, deref_assign_status_same, deref_with_world,
    !deref_modify_same, deref_assign_status_same, !deref_modify_same,
    deref_assign_status_same, deref_new_task.
  cbn [option_map status result_path progress message error set_status
       set_progress set_message set_result_path GenerationTask__init__
       String.eqb Ascii.eqb Bool.eqb andb negb orb truthy_opt].
  assert (Htruthy : truthy out = true) by reflexivity.
  rewrite Htruthy. cbn [andb negb orb].
  cbn [world modify assign_status with_world fs Os.files].
  rewrite dict_get_set_same.
  repeat split; reflexivity.
Qed.

End EndToEnd.

Section UploadCleanup.
Import Gen Stated Further WebApi.
Variable E : Externals.

(** The output of [request_and_save] keeps the keys of the file system
    unique. *)
Lemma request_and_save_unique (g : Generator) (w : World)
      (contents : list ContentItem) (output_path : string) :
  unique_keys (Os.files (fs w)) ->
  unique_keys (Os.files (fs (snd (request_and_save E g w contents output_path)))).
Proof.
  intros Hu. unfold request_and_save.
  destruct (self_client g (self_model g) contents) as [[response|]|e];
    try exact Hu.
  destruct (candidates response); try exact Hu.
  destruct (first_image E response) as [image|]; try exact Hu.
  unfold write_file. cbn [fs with_sent].
  destruct (is_locked (fs w) output_path); try exact Hu.
  cbn [snd with_fs fs Os.files]. now apply dict_set_unique.
Qed.

Lemma from_prompt_removable (g : Generator) (w : World) (p prompt out : string) :
  removable p w ->
  removable p (snd (generate_image_from_prompt E g w prompt out)).
Proof.
  intros [Hu Hl]. unfold generate_image_from_prompt.
  destruct (calculate_cost (self_model g) prompt false) as [cb|e];
    [|split; assumption].
  pose proof (request_and_save_files E (add_cost g (total_cost cb)) w
                [ItemText prompt] out) as H.
  pose proof (request_and_save_unique (add_cost g (total_cost cb)) w
                [ItemText prompt] out Hu) as Hu'.
  destruct (request_and_save E _ w [ItemText prompt] out) as [r w'].
  destruct H as (Hlocked & _). cbn [snd] in *.
  split; [exact Hu'|]. unfold is_locked in *. now rewrite Hlocked.
Qed.

Lemma with_input_removable (g : Generator) (w : World) (p i prompt out : string) :
  removable p w ->
  removable p (snd (generate_image_with_input E g w i prompt out)).
Proof.
  intros [Hu Hl]. unfold generate_image_with_input.
  destruct (calculate_cost (self_model g) prompt true) as [cb|e];
    [|split; assumption].
  destruct (load_image E w i) as [[image_data mime]|e]; [|split; assumption].
  pose proof (request_and_save_files E (add_cost g (total_cost cb)) w
                [ItemBytes image_data mime; ItemText prompt] out) as H.
  pose proof (request_and_save_unique (add_cost g (total_cost cb)) w
                [ItemBytes image_data mime; ItemText prompt] out Hu) as Hu'.
  destruct (request_and_save E _ w _ out) as [r w'].
  destruct H as (Hlocked & _). cbn [snd] in *.
  split; [exact Hu'|]. unfold is_locked in *. now rewrite Hlocked.
Qed.

Lemma remove_input_removable (st : State) (p : string) :
  truthy p = true ->
  removable p (world st) ->
  exists st',
    remove_input st (Some p) = Ok st' /\
    path_exists (fs (world st')) p = false /\
    removable p (world st').
Proof.
  intros Hp [Hu Hl]. unfold remove_input, input_present. rewrite Hp. cbn [andb].
  destruct (path_exists (fs (world st)) p) eqn:Hex.
  - unfold remove. rewrite Hex, Hl. cbn [negb].
    eexists. split; [reflexivity|].
    cbn [world with_world with_fs fs].
    split.
    + unfold path_exists, dict_mem. cbn [Os.files].
      now rewrite dict_get_del_same.
    + split; cbn [Os.files]; [now apply dict_del_unique|exact Hl].
  - exists st. repeat split; assumption.
Qed.

Lemma worker_try_removable (st : State) (task : ref)
      (api_key model prompt p : string) :
  truthy p = true ->
  removable p (world st) ->
  let '(st', stopped) := worker_try E st task api_key model prompt (Some p) in
  removable p (world st') /\
  (stopped = None -> path_exists (fs (world st')) p = false).
Proof.
  intros Hp Hrem. unfold worker_try.
  destruct (__init__ E _ (Some api_key) model) as [generator|e].
  - cbv beta zeta.
    match goal with
    | |- context [let '(r, st) := ?branch in _] =>
        assert (Hb : removable p (world (snd branch)));
        [|destruct branch as [r st1]]
    end.
    { destruct (input_present _ (Some p)).
      - match goal with
        | |- context [generate_image_with_input E generator ?w0 p prompt ?out] =>
            pose proof (with_input_removable generator w0 p p prompt out Hrem) as H;
            destruct (generate_image_with_input E generator w0 p prompt out)
              as [[r g'] w']
        end.
        exact H.
      - match goal with
        | |- context [generate_image_from_prompt E generator ?w0 prompt ?out] =>
            pose proof (from_prompt_removable generator w0 p prompt out Hrem) as H;
            destruct (generate_image_from_prompt E generator w0 prompt out)
              as [[r g'] w']
        end.
        exact H. }
    cbn [snd] in Hb.
    destruct r as [result_path|e].
    + match goal with
      | |- context [remove_input ?st0 (Some p)] =>
          destruct (remove_input_removable st0 p Hp Hb) as (st2 & Hrm & Hgone & Hrem2)
      end.
      rewrite Hrm. split; [exact Hrem2|intros _; exact Hgone].
    + split; [exact Hb|discriminate].
  - split; [exact Hrem|discriminate].
Qed.

(** X20.  An upload that the process may unlink never survives its
    worker: whether the generation succeeds or fails, the worker ends
    without an uncaught exception and the upload is gone. *)
Theorem removable_upload_is_removed
        (st : State) (task : ref) (api_key model prompt p : string) :
  truthy p = true ->
  unique_keys (Os.files (fs (world st))) ->
  is_locked (fs (world st)) p = false ->
  exists st',
    generate_image_background E st task api_key model prompt (Some p)
    = (st', None) /\
    path_exists (fs (world st')) p = false.
Proof.
  intros Hp Hu Hl. unfold generate_image_background.
  pose proof (worker_try_removable st task api_key model prompt p Hp
                (conj Hu Hl)) as H.
  destruct (worker_try E st task api_key model prompt (Some p)) as [st1 [e|]].
  - destruct H as [Hrem _].
    match goal with
    | |- context [remove_input ?st0 (Some p)] =>
        destruct (remove_input_removable st0 p Hp Hrem) as (st2 & Hrm & Hgone & _)
    end.
    rewrite Hrm. exists st2. split; [reflexivity|exact Hgone].
  - destruct H as [_ Hgone]. exists st1. split; [reflexivity|exact (Hgone eq_refl)].
Qed.

End UploadCleanup.

Section Sweep.
Import Gen Stated Further WebApi.

(** [x - x] is [0.0] or NaN: never more than ten minutes. *)
Lemma fsub_diag_not_late (x : float) :
  fltb (of_int 600) (fsub x x) = false.
Proof.
  assert (Hd : fsub x x = S754_zero false \/ fsub x x = S754_nan).
  { destruct x as [[]|[]| |s m e]; cbn; auto.
    left. unfold fsub, SFsub. cbv zeta. rewrite Z.sub_diag. reflexivity. }
  destruct Hd as [Hd|Hd]; rewrite Hd; vm_compute; reflexivity.
Qed.

Lemma due_stamped (now : float) (t t' : GenerationTask) :
  stamped now t t' -> due now t' = due now t.
Proof.
  intros [->|(Hf & Ht & ->)]; [reflexivity|].
  unfold due. cbn [created_at status finished_at set_finished_at].
  rewrite Hf, fsub_diag_not_late. now rewrite !andb_false_r.
Qed.

Lemma stamped_trans (now : float) (t1 t2 t3 : GenerationTask) :
  stamped now t1 t2 -> stamped now t2 t3 -> stamped now t1 t3.
Proof.
  intros [->|(Hf & Ht & ->)] H23; [exact H23|].
  destruct H23 as [->|(Hf' & _)]; [right; auto|].
  cbn in Hf'. discriminate.
Qed.

Lemma dict_get_some_in {V} (d : dict V) (k : string) (v : V) :
  dict_get d k = Some v -> In (k, v) d.
Proof.
  induction d as [|[k0 v0] d IH]; cbn; [discriminate|].
  destruct (String.eqb k k0) eqn:Hk.
  - apply String.eqb_eq in Hk. intros [= ->]. left. now subst.
  - intros H. right. exact (IH H).
Qed.

Lemma scanned_refl (now : float) (st : State) : scanned now st st.
Proof.
  repeat split. intros r. destruct (deref st r) as [t|]; [|reflexivity].
  exists t. split; [reflexivity|left; reflexivity].
Qed.

Lemma scanned_trans (now : float) (st1 st2 st3 : State) :
  scanned now st1 st2 -> scanned now st2 st3 -> scanned now st1 st3.
Proof.
  intros (Ha & Hw & Ho) (Ha' & Hw' & Ho').
  repeat split; try congruence.
  intros r. specialize (Ho r). specialize (Ho' r).
  destruct (deref st1 r) as [t|].
  - destruct Ho as (t2 & H2 & Hs). rewrite H2 in Ho'.
    destruct Ho' as (t3 & H3 & Hs'). exists t3. split; [exact H3|].
    exact (stamped_trans now _ _ _ Hs Hs').
  - now rewrite Ho in Ho'.
Qed.

Lemma scanned_stamp (now : float) (st : State) (r : ref) (t : GenerationTask) :
  deref st r = Some t -> finished_at t = None -> is_terminal (status t) = true ->
  scanned now st (modify st r (fun t => set_finished_at t now)).
Proof.
  intros Ht Hf Hterm. repeat split.
  intros r'. destruct (Nat.eq_dec r r') as [<-|Hne].
  - rewrite Ht, deref_modify_same, Ht. eexists. split; [reflexivity|].
    right. auto.
  - unfold deref. cbn [heap modify].
    rewrite nth_error_list_update_other by exact Hne.
    destruct (nth_error (heap st) r') as [t'|]; [|reflexivity].
    exists t'. split; [reflexivity|left; reflexivity].
Qed.

(** Whether the first loop lists the entry it is on, given the object as
    it stands then. *)
Lemma sweep_scan_spec (now : float) (items : list (string * ref)) :
  forall (st : State) (acc : list string),
    let '(acc', st') := sweep_scan now items st acc in
    scanned now st st' /\
    (forall id r t, In (id, r) items -> deref st r = Some t ->
                    is_terminal (status t) = true ->
                    exists t', deref st' r = Some t' /\ finished_at t' <> None) /\
    exists ids,
      acc' = acc ++ ids /\
      forall id,
        In id ids <->
        exists r t, In (id, r) items /\ deref st r = Some t /\ due now t = true.
Proof.
  induction items as [|[id0 r0] items IH]; intros st acc.
  - cbn [sweep_scan]. split; [apply scanned_refl|].
    split; [intros id r t []|].
    exists []. split; [now rewrite app_nil_r|].
    intros id. split; [intros []|intros (r & t & [] & _)].
  - cbn [sweep_scan].
    destruct (deref st r0) as [t0|] eqn:Ht0.
    + (* the state and the list after the head *)
      set (acc1 := match created_at t0 with
                   | Some created =>
                       if fltb (of_int 3600) (fsub now created)
                       then acc ++ [id0] else acc
                   | None => acc
                   end).
      assert (Hstep : exists st1 acc2 new,
                 (if is_terminal (status t0)
                  then match finished_at t0 with
                       | None =>
                           sweep_scan now items
                             (modify st r0 (fun t => set_finished_at t now)) acc1
                       | Some finished =>
                           if fltb (of_int 600) (fsub now finished)
                           then sweep_scan now items st (acc1 ++ [id0])
                           else sweep_scan now items st acc1
                       end
                  else sweep_scan now items st acc1)
                 = sweep_scan now items st1 acc2 /\
                 scanned now st st1 /\
                 acc2 = acc ++ new /\
                 (forall id, In id new <-> id = id0 /\ due now t0 = true) /\
                 (is_terminal (status t0) = true ->
                  exists t', deref st1 r0 = Some t' /\ finished_at t' <> None)).
      { unfold due. subst acc1.
        destruct (created_at t0) as [created|];
          [destruct (fltb (of_int 3600) (fsub now created))|];
          (destruct (is_terminal (status t0)) eqn:Hterm;
           [destruct (finished_at t0) as [finished|] eqn:Hfin;
            [destruct (fltb (of_int 600) (fsub now finished))|]|]);
          cbn [orb andb];
          cbn [orb andb];
          (eexists; eexists; eexists;
           split; [reflexivity|];
           split; [first [apply scanned_refl
                         |eapply scanned_stamp; eassumption]|];
           split; [first [reflexivity
                         |symmetry; apply app_nil_r
                         |rewrite <- app_assoc; reflexivity]|];
           split;
           [intros id; cbn [In app]; intuition congruence
           |intros Hq;
            first [discriminate Hq
                  |exists t0; split; [exact Ht0|rewrite Hfin; discriminate]
                  |rewrite deref_modify_same, Ht0; eexists;
                   split; [reflexivity|discriminate]]]). }
      destruct Hstep as (st1 & acc2 & new & Heq & Hsc & Hacc & Hnew & Hfin1).
      rewrite Heq. clear Heq.
      specialize (IH st1 acc2).
      destruct (sweep_scan now items st1 acc2) as [acc' st'].
      destruct IH as (Hsc' & Hfin' & ids & Hids & Hin).
      split; [exact (scanned_trans now _ _ _ Hsc Hsc')|].
      split.
      * intros id r t [[= <- <-]|Hitem] Ht Hterm.
        -- rewrite Ht0 in Ht. injection Ht as <-.
           destruct (Hfin1 Hterm) as (t1 & Ht1 & Hf1).
           destruct Hsc' as (_ & _ & Ho). specialize (Ho r0). rewrite Ht1 in Ho.
           destruct Ho as (t2 & Ht2 & [->|(Hnone & _)]); [|contradiction].
           exists t1. split; assumption.
        -- destruct Hsc as (_ & _ & Ho). specialize (Ho r). rewrite Ht in Ho.
           destruct Ho as (t1 & Ht1 & Hs).
           apply (Hfin' id r t1 Hitem Ht1).
           destruct Hs as [->|(_ & _ & ->)]; exact Hterm.
      * exists (new ++ ids). split; [subst; now rewrite app_assoc|].
        intros id. rewrite in_app_iff, Hnew, Hin. split.
        -- intros [[-> Hdue]|(r & t1 & Hitem & Ht1 & Hdue)].
           ++ exists r0, t0.
              split; [left; reflexivity|split; [exact Ht0|exact Hdue]].
           ++ destruct Hsc as (_ & _ & Ho). specialize (Ho r).
              destruct (deref st r) as [t|] eqn:Ht; [|congruence].
              destruct Ho as (t1' & Ht1' & Hs).
              rewrite Ht1 in Ht1'. injection Ht1' as <-.
              exists r, t.
              split; [right; exact Hitem|split; [exact Ht|]].
              now rewrite <- (due_stamped now t t1 Hs).
        -- intros (r & t & [[= <- <-]|Hitem] & Ht & Hdue).
           ++ left. rewrite Ht0 in Ht. injection Ht as <-. split; [reflexivity|exact Hdue].
           ++ right. destruct Hsc as (_ & _ & Ho). specialize (Ho r).
              rewrite Ht in Ho. destruct Ho as (t1 & Ht1 & Hs).
              exists r, t1.
              split; [exact Hitem|split; [exact Ht1|]].
              now rewrite (due_stamped now t t1 Hs).
    + specialize (IH st acc).
      destruct (sweep_scan now items st acc) as [acc' st'].
      destruct IH as (Hsc' & Hfin' & ids & Hids & Hin).
      split; [exact Hsc'|].
      split.
      * intros id r t [[= <- <-]|Hitem] Ht Hterm; [congruence|].
        exact (Hfin' id r t Hitem Ht Hterm).
      * exists ids. split; [exact Hids|].
        intros id. rewrite Hin. split.
        -- intros (r & t & Hitem & H). exists r, t. split; [right; exact Hitem|exact H].
        -- intros (r & t & [[= <- <-]|Hitem] & Ht & Hdue); [congruence|].
           exists r, t. repeat split; assumption.
Qed.

Lemma dict_get_del_none {V} (d : dict V) (k k' : string) :
  dict_get d k' = None -> dict_get (dict_del d k) k' = None.
Proof.
  rewrite !dict_get_none_notin. intros H Hin. apply H.
  eapply in_keys_dict_del. exact Hin.
Qed.

(** The second loop only deletes, and only what is on its list. *)
Lemma sweep_remove_keeps (l : list string) :
  forall st st',
    sweep_remove l st = Ok st' ->
    heap st' = heap st /\
    (forall id, ~ In id l ->
                dict_get (active_tasks st') id = dict_get (active_tasks st) id) /\
    (forall id, dict_get (active_tasks st) id = None ->
                dict_get (active_tasks st') id = None).
Proof.
  induction l as [|id0 l IH]; intros st st'; cbn [sweep_remove].
  - intros [= <-]. repeat split; auto.
  - destruct (dict_get (active_tasks st) id0) as [r|] eqn:Hid.
    + match goal with
      | |- context [match ?x with Ok _ => _ | Raise _ => _ end] =>
          destruct x as [st1|e] eqn:Hrm
      end; [|discriminate].
      assert (Hh : heap st1 = heap st /\ active_tasks st1 = active_tasks st).
      { destruct (deref st r) as [task|]; [|injection Hrm as <-; auto].
        destruct (result_path task) as [p|]; [|injection Hrm as <-; auto].
        destruct (truthy p && path_exists (fs (world st)) p);
          [|injection Hrm as <-; auto].
        destruct (remove _ p); [|discriminate].
        injection Hrm as <-. auto. }
      destruct Hh as [Hheap Hact].
      intros H. destruct (IH _ _ H) as (Hheap' & Hkeep & Hnone).
      cbn [heap active_tasks with_active_tasks] in *.
      split; [congruence|]. split.
      * intros id Hnot. rewrite Hkeep by (intros Hin; apply Hnot; now right).
        rewrite Hact. apply dict_get_del_other. intros ->. apply Hnot. now left.
      * intros id Hn. apply Hnone. rewrite Hact. now apply dict_get_del_none.
    + intros H. destruct (IH _ _ H) as (Hheap' & Hkeep & Hnone).
      split; [exact Hheap'|]. split; [|exact Hnone].
      intros id Hnot. apply Hkeep. intros Hin. apply Hnot. now right.
Qed.

(** With nothing locked the second loop ends, and what was on its list is
    out of the registry. *)
Lemma sweep_remove_evicts (l : list string) :
  forall st,
    locked (fs (world st)) = [] ->
    unique_keys (active_tasks st) ->
    exists st',
      sweep_remove l st = Ok st' /\
      forall id, In id l -> dict_get (active_tasks st') id = None.
Proof.
  induction l as [|id0 l IH]; intros st Hlock Hu; cbn [sweep_remove].
  - exists st. split; [reflexivity|intros id []].
  - destruct (dict_get (active_tasks st) id0) as [r|] eqn:Hid.
    + assert (Hrm : exists st1,
                 match deref st r with
                 | Some task =>
                     match result_path task with
                     | Some p =>
                         if truthy p && path_exists (fs (world st)) p
                         then match remove (fs (world st)) p with
                              | Ok fs' => Ok (with_world st (with_fs (world st) fs'))
                              | Raise e => Raise e
                              end
                         else Ok st
                     | None => Ok st
                     end
                 | None => Ok st
                 end = Ok st1 /\
                 active_tasks st1 = active_tasks st /\
                 locked (fs (world st1)) = []).
      { destruct (deref st r) as [task|]; [|eauto].
        destruct (result_path task) as [p|]; [|eauto].
        destruct (truthy p && path_exists (fs (world st)) p) eqn:Hc; [|eauto].
        apply andb_true_iff in Hc. destruct Hc as [_ Hex].
        unfold remove, is_locked. rewrite Hex, Hlock. cbn [negb existsb].
        eexists. split; [reflexivity|]. split; reflexivity. }
      destruct Hrm as (st1 & Hrm & Hact & Hlock1). rewrite Hrm.
      destruct (IH (with_active_tasks st1 (dict_del (active_tasks st1) id0)))
        as (st' & Hok & Hgone).
      * exact Hlock1.
      * cbn [active_tasks with_active_tasks]. rewrite Hact.
        now apply dict_del_unique.
      * exists st'. split; [exact Hok|].
        intros id [<-|Hin]; [|exact (Hgone id Hin)].
        destruct (sweep_remove_keeps _ _ _ Hok) as (_ & _ & Hnone).
        apply Hnone. cbn [active_tasks with_active_tasks]. rewrite Hact.
        now apply dict_get_del_same.
    + destruct (IH st Hlock Hu) as (st' & Hok & Hgone).
      exists st'. split; [exact Hok|].
      intros id [<-|Hin]; [|exact (Hgone id Hin)].
      destruct (sweep_remove_keeps _ _ _ Hok) as (_ & _ & Hnone).
      now apply Hnone.
Qed.

(** X21.  A sweep that returns never evicts or alters a task that is not
    terminal: pending, initializing and generating tasks stay registered
    however old they are. *)
Theorem sweep_keeps_unfinished_task
        (st st' : State) (now : float) (id : string) (r : ref)
        (t : GenerationTask) :
  unique_keys (active_tasks st) ->
  dict_get (active_tasks st) id = Some r ->
  deref st r = Some t ->
  created_at t = None ->
  is_terminal (status t) = false ->
  cleanup_old_tasks st now = Ok st' ->
  dict_get (active_tasks st') id = Some r /\ deref st' r = Some t.
Proof.
  intros Hu Hid Ht Hc Hterm. unfold cleanup_old_tasks.
  pose proof (sweep_scan_spec now (active_tasks st) st []) as Hscan.
  destruct (sweep_scan now (active_tasks st) st []) as [to_remove st1].
  destruct Hscan as ((Hact & _ & Hobj) & _ & ids & Hids & Hin).
  cbn [app] in Hids. subst to_remove.
  intros Hrm. destruct (sweep_remove_keeps _ _ _ Hrm) as (Hheap & Hkeep & _).
  split.
  - rewrite Hkeep, Hact; [exact Hid|].
    intros Hbad. apply Hin in Hbad. destruct Hbad as (r' & t' & Hitem & Ht' & Hdue).
    pose proof (dict_get_in _ _ _ _ Hu Hitem Hid) as ->.
    rewrite Ht in Ht'. injection Ht' as <-.
    unfold due in Hdue. rewrite Hc, Hterm in Hdue. discriminate.
  - unfold deref. rewrite Hheap. specialize (Hobj r). rewrite Ht in Hobj.
    destruct Hobj as (t1 & Ht1 & [->|(_ & Hbad & _)]); [exact Ht1|congruence].
Qed.

(** X22.  A terminal task met by a sweep for the first time is kept and
    stamped with the time of that sweep as [finished_at], however long ago
    it finished. *)
Theorem first_sweep_stamps_finished_task
        (st st' : State) (now : float) (id : string) (r : ref)
        (t : GenerationTask) :
  unique_keys (active_tasks st) ->
  dict_get (active_tasks st) id = Some r ->
  deref st r = Some t ->
  created_at t = None ->
  finished_at t = None ->
  is_terminal (status t) = true ->
  cleanup_old_tasks st now = Ok st' ->
  dict_get (active_tasks st') id = Some r /\
  deref st' r = Some (set_finished_at t now).
Proof.
  intros Hu Hid Ht Hc Hf Hterm. unfold cleanup_old_tasks.
  pose proof (sweep_scan_spec now (active_tasks st) st []) as Hscan.
  destruct (sweep_scan now (active_tasks st) st []) as [to_remove st1].
  destruct Hscan as ((Hact & _ & Hobj) & Hfin & ids & Hids & Hin).
  cbn [app] in Hids. subst to_remove.
  intros Hrm. destruct (sweep_remove_keeps _ _ _ Hrm) as (Hheap & Hkeep & _).
  split.
  - rewrite Hkeep, Hact; [exact Hid|].
    intros Hbad. apply Hin in Hbad. destruct Hbad as (r' & t' & Hitem & Ht' & Hdue).
    pose proof (dict_get_in _ _ _ _ Hu Hitem Hid) as ->.
    rewrite Ht in Ht'. injection Ht' as <-.
    unfold due in Hdue. rewrite Hc, Hf, andb_false_r in Hdue. discriminate.
  - unfold deref. rewrite Hheap.
    destruct (Hfin id r t (dict_get_some_in _ _ _ Hid) Ht Hterm) as (t1 & Ht1 & Hf1).
    specialize (Hobj r). rewrite Ht in Hobj.
    destruct Hobj as (t2 & Ht2 & Hs). rewrite Ht1 in Ht2. injection Ht2 as <-.
    destruct Hs as [->|(_ & _ & ->)]; [contradiction|exact Ht1].
Qed.

(** X23.  A terminal task stamped more than 600 seconds before the sweep is
    evicted by it, when no file is locked: the sweep returns and the id is
    out of the registry. *)
Theorem stale_finished_task_is_evicted
        (st : State) (now finished : float) (id : string) (r : ref)
        (t : GenerationTask) :
  unique_keys (active_tasks st) ->
  locked (fs (world st)) = [] ->
  dict_get (active_tasks st) id = Some r ->
  deref st r = Some t ->
  is_terminal (status t) = true ->
  finished_at t = Some finished ->
  fltb (of_int 600) (fsub now finished) = true ->
  exists st',
    cleanup_old_tasks st now = Ok st' /\
    dict_get (active_tasks st') id = None.
Proof.
  intros Hu Hlock Hid Ht Hterm Hf Hlate. unfold cleanup_old_tasks.
  pose proof (sweep_scan_spec now (active_tasks st) st []) as Hscan.
  destruct (sweep_scan now (active_tasks st) st []) as [to_remove st1].
  destruct Hscan as ((Hact & Hworld & _) & _ & ids & Hids & Hin).
  cbn [app] in Hids. subst to_remove.
  destruct (sweep_remove_evicts ids st1) as (st' & Hok & Hgone).
  - now rewrite Hworld.
  - now rewrite Hact.
  - exists st'. split; [exact Hok|].
    apply Hgone, Hin. exists r, t.
    split; [exact (dict_get_some_in _ _ _ Hid)|]. split; [exact Ht|].
    unfold due. rewrite Hterm, Hf, Hlate. cbn [andb]. apply orb_true_r.
Qed.

End Sweep.

(** * Further properties: file names, the command line and the window *)

Section FileNames.
Import WebApi.

Lemma has_dot_app (s1 s2 : string) :
  has_dot (s1 ++ s2) = has_dot s1 || has_dot s2.
Proof.
  induction s1 as [|c s1 IH]; cbn; [reflexivity|].
  rewrite IH. now rewrite orb_assoc.
Qed.

Lemma rsplit_dot_1_no_dot (s : string) :
  has_dot s = false -> rsplit_dot_1 s = None.
Proof.
  induction s as [|c s IH]; cbn; [reflexivity|].
  intros H. apply orb_false_iff in H. destruct H as [Hc Hs].
  now rewrite (IH Hs), Hc.
Qed.

Lemma rsplit_dot_1_last (stem ext : string) :
  has_dot ext = false -> rsplit_dot_1 (stem ++ "." ++ ext) = Some ext.
Proof.
  intros Hext. induction stem as [|c stem IH]; cbn.
  - now rewrite (rsplit_dot_1_no_dot ext Hext).
  - cbn in IH. now rewrite IH.
Qed.

(** X24.  Only what follows the last dot of a file name decides whether the
    upload is allowed, and it is compared in lower case; a name without
    dot is never allowed. *)
Theorem allowed_file_decided_by_last_extension (stem ext name : string) :
  (has_dot ext = false ->
   allowed_file (stem ++ "." ++ ext)
   = existsb (String.eqb (lower ext)) ALLOWED_EXTENSIONS) /\
  (has_dot name = false -> allowed_file name = false).
Proof.
  split.
  - intros Hext. unfold allowed_file.
    rewrite (rsplit_dot_1_last stem ext Hext), has_dot_app. cbn [has_dot append].
    cbn [Ascii.eqb Bool.eqb]. cbn [orb]. now rewrite orb_true_r.
  - intros Hname. unfold allowed_file. now rewrite Hname.
Qed.

End FileNames.

Section Outcomes.
Import Gen Stated Further.
Variable E : Externals.






(** X26.  An empty prompt is estimated at exactly the price of the images:
    the text costs [0.0]; the total is the image price without input
    image and twice that price with one. *)
Theorem empty_prompt_costs_the_image_price (M : string) (info : ModelInfo) :
  dict_get AVAILABLE_MODELS M = Some info ->
  exists without_image with_image : CostBreakdown,
    calculate_cost M "" false = Ok without_image /\
    calculate_cost M "" true = Ok with_image /\
    input_chars without_image = 0%nat /\
    input_text_cost without_image = fzero /\
    total_cost without_image = output_cost_per_image (pricing info) /\
    total_cost with_image
    = fmul (of_int 2) (output_cost_per_image (pricing info)).
Proof.
  intros H. eexists. eexists.
  split; [apply (calculate_cost_unfold M info "" false H)|].
  split; [apply (calculate_cost_unfold M info "" true H)|].
  rewrite (table_pricing M info H).
  repeat split; vm_compute; reflexivity.
Qed.



End Outcomes.

(** * The further properties on concrete inputs *)

Section FurtherExamples.
Import Gen Scenario Stated Further Cases.

Lemma note_does_not_qualify (E : Externals) :
  forall p, In p [note] -> ~ qualifies E p.
Proof.
  intros p [<-|[]] (blob & Hb & _). discriminate Hb.
Qed.

Lemma picture_stands_for_its_bytes (E : Externals) :
  stands_for E (picture 1001) image_1001.
Proof.
  eexists. split; [reflexivity|]. split; [reflexivity|].
  split; [|left; reflexivity].
  cbn [data data_len]. rewrite repeat_length. lia.
Qed.


Lemma missing_input_is_charged_without_request_witness :
  path_exists (fs empty_world) "missing.png" = false /\
  exists cb,
    calculate_cost "gemini-2.5-flash-image-preview" "a cat" true = Ok cb /\
    generate_image_with_input
      working (generator_on (answering (text_then_image 1001))) empty_world
      "missing.png" "a cat" "out.png"
    = (Raise (Exn RuntimeError
                  "Failed to generate image: Image file not found: missing.png"),
       add_cost (generator_on (answering (text_then_image 1001))) (total_cost cb),
       empty_world).
Proof.
  split; [reflexivity|].
  exact (missing_input_is_charged_without_request
           working (generator_on (answering (text_then_image 1001))) empty_world
           _ "missing.png" "a cat" "out.png" eq_refl eq_refl).
Defined.

Lemma input_image_is_sent_before_prompt_witness :
  exists mime,
    sent (snd (generate_image_with_input
                 working (generator_on (answering (text_then_image 1001)))
                 world_with_input "in.png" "a cat" "out.png"))
    = [("gemini-2.5-flash-image-preview", [ItemBytes [x89] mime; ItemText "a cat"])]
    /\ In mime ["image/jpeg"; "image/png"; "image/gif"; "image/bmp"; "image/webp"].
Proof.
  destruct (input_image_is_sent_before_prompt
              working (generator_on (answering (text_then_image 1001)))
              world_with_input _ [x89] "in.png" "a cat" "out.png"
              eq_refl eq_refl) as (mime & Hsent & Hin & _).
  exists mime. split; [exact Hsent|exact Hin].
Defined.

Lemma first_qualifying_part_is_saved_witness :
  exists g' w',
    generate_image_from_prompt
      working (generator_on (answering (text_then_image 1001))) empty_world
      "a cat" "out.png" = (Ok "out.png", g', w') /\
    dict_get (files (fs w')) "out.png" = Some image_1001.
Proof.
  exact (first_qualifying_part_is_saved
           working (generator_on (answering (text_then_image 1001))) empty_world
           _ "a cat" "out.png" (text_then_image 1001)
           [note] [] (picture 1001) image_1001
           eq_refl eq_refl eq_refl
           (note_does_not_qualify working)
           (picture_stands_for_its_bytes working) eq_refl).
Defined.

Lemma endpoints_without_key_answer_500_witness :
  App.generate_image working server_without_key (Ok [("prompt", "a cat")])
  = (App.Failure 500 "Generator not initialized. Check GEMINI_API_KEY",
     server_without_key) /\
  App.generate_with_input working server_without_key [("prompt", "a cat")] []
  = (App.Failure 500 "Generator not initialized. Check GEMINI_API_KEY",
     server_without_key) /\
  App.reset_cost server_without_key
  = (App.Failure 500 "Generator not initialized", server_without_key).
Proof.
  exact (endpoints_without_key_answer_500
           working server_without_key (Ok [("prompt", "a cat")])
           [("prompt", "a cat")] [] eq_refl eq_refl).
Defined.

Lemma blank_prompt_is_refused_witness :
  App.generate_image working (server_on (answering (text_then_image 1001)))
                     (Ok [("prompt", "   ")])
  = (App.Failure 400 "Prompt is required",
     server_on (answering (text_then_image 1001))) /\
  App.generate_with_input working (server_on (answering (text_then_image 1001)))
                          [("prompt", "   ")] []
  = (App.Failure 400 "Prompt is required",
     server_on (answering (text_then_image 1001))).
Proof.
  exact (blank_prompt_is_refused
           working (server_on (answering (text_then_image 1001))) _
           [("prompt", "   ")] [] eq_refl eq_refl).
Defined.




Lemma web_generation_with_input_adds_estimate_twice_witness :
  match App.generate_with_input
          working (server_on (answering (text_then_image 1001)))
          [("prompt", "a cat")]
          [("image", {| App.filename := "in.png"; App.content := [x89] |})]
  with
  | (App.Generated image cb session_total, _) =>
      image = image_1001 /\
      session_total = fadd (fadd fzero (total_cost cb)) (total_cost cb)
  | _ => False
  end.
Proof.
  destruct (App.generate_with_input
              working (server_on (answering (text_then_image 1001)))
              [("prompt", "a cat")]
              [("image", {| App.filename := "in.png"; App.content := [x89] |})])
    as [[image cb session_total|session_total|code error] s'] eqn:H.
  - split.
    + vm_compute in H. injection H as <- _ _ _. reflexivity.
    + exact (web_generation_with_input_adds_estimate_twice
               working (server_on (answering (text_then_image 1001))) s'
               (generator_on (answering (text_then_image 1001)))
               _ _ image cb session_total eq_refl H).
  - vm_compute in H. discriminate H.
  - vm_compute in H. discriminate H.
Defined.

Lemma worker_leaves_task_terminal_witness :
  exists t',
    WebApi.deref
      (fst (WebApi.generate_image_background
              working busy_upload 0%nat "key" "gemini-2.5-flash-image-preview"
              "a cat" (Some "uploads/in.png"))) 0%nat = Some t' /\
    WebApi.task_id t' = "t1" /\
    ((WebApi.status t' = "completed" /\ WebApi.progress t' = 100 /\
      WebApi.result_path t' <> None) \/
     (WebApi.status t' = "error" /\
      exists text, WebApi.error t' = Some text /\
                   WebApi.message t' = ("Error: " ++ text)%string)).
Proof.
  exact (worker_leaves_task_terminal
           working busy_upload 0%nat _ "key" "gemini-2.5-flash-image-preview"
           "a cat" (Some "uploads/in.png") eq_refl).
Defined.

Lemma allowed_upload_is_saved_witness :
  WebApi.allowed_file "photo.PNG" = true /\
  exists (st' : WebApi.State) (args : WebApi.WorkerArgs),
    WebApi.generate_image working fresh_process (form_with_upload "photo.PNG")
    = (WebApi.Started "uuid-1", st', Some args) /\
    WebApi.arg_input_file_path args = Some "uploads/uuid-0_photo.PNG" /\
    dict_get (files (fs (WebApi.world st'))) "uploads/uuid-0_photo.PNG"
    = Some [x89] /\
    dict_get (WebApi.active_tasks st') "uuid-1" = Some (WebApi.arg_task args).
Proof.
  split; [reflexivity|].
  exact (allowed_upload_is_saved
           working fresh_process (form_with_upload "photo.PNG") "key" "a cat"
           {| WebApi.filename := "photo.PNG"; WebApi.content := [x89] |}
           eq_refl eq_refl eq_refl eq_refl eq_refl eq_refl eq_refl eq_refl).
Defined.

Lemma accepted_task_polls_pending_witness :
  WebApiRoutes.get_task_status
    (snd (fst (WebApi.generate_image working fresh_process form_only))) "uuid-0"
  = WebApiRoutes.StatusOk
      {| WebApiRoutes.body_task_id := "uuid-0";
         WebApiRoutes.body_status := "pending";
         WebApiRoutes.body_progress := 0;
         WebApiRoutes.body_message := "Task created";
         WebApiRoutes.download_url := None;
         WebApiRoutes.preview_url := None;
         WebApiRoutes.body_error := None |} /\
  WebApiRoutes.download_image
    (snd (fst (WebApi.generate_image working fresh_process form_only))) "uuid-0"
  = WebApiRoutes.FileError 400 "Image not ready" /\
  WebApiRoutes.preview_image
    (snd (fst (WebApi.generate_image working fresh_process form_only))) "uuid-0"
  = WebApiRoutes.FileError 400 "Image not ready".
Proof.
  exact (accepted_task_polls_pending
           working fresh_process
           (snd (fst (WebApi.generate_image working fresh_process form_only)))
           form_only "uuid-0"
           (snd (WebApi.generate_image working fresh_process form_only))
           eq_refl).
Defined.

Lemma one_key_is_unique {V} (k : string) (v : V) : unique_keys [(k, v)].
Proof. constructor; [intros []|constructor]. Qed.

Lemma cleaned_task_is_unknown_witness :
  WebApiRoutes.get_task_status
    (snd (WebApiRoutes.cleanup_task (one_task "completed") "t1")) "t1"
  = WebApiRoutes.StatusNotFound "Task not found" /\
  WebApiRoutes.download_image
    (snd (WebApiRoutes.cleanup_task (one_task "completed") "t1")) "t1"
  = WebApiRoutes.FileError 404 "Task not found".
Proof.
  destruct (cleaned_task_is_unknown
              (one_task "completed")
              (snd (WebApiRoutes.cleanup_task (one_task "completed") "t1")) "t1"
              (one_key_is_unique "t1" 0%nat) eq_refl) as (H1 & H2 & _).
  split; [exact H1|exact H2].
Defined.

Lemma accepted_prompt_ends_in_download_witness :
  exists (st1 st2 : WebApi.State) (args : WebApi.WorkerArgs),
    WebApi.generate_image working fresh_process form_only
    = (WebApi.Started "uuid-0", st1, Some args) /\
    WebApi.run_worker working st1 args = (st2, None) /\
    WebApiRoutes.download_image st2 "uuid-0"
    = WebApiRoutes.SendFile "outputs/generated_uuid-0.png" image_1001 true.
Proof.
  destruct (accepted_prompt_ends_in_download
              working fresh_process form_only _ "key" "a cat"
              (text_then_image 1001) [note] [] (picture 1001) image_1001
              eq_refl eq_refl eq_refl eq_refl eq_refl eq_refl eq_refl eq_refl
              (note_does_not_qualify working)
              (picture_stands_for_its_bytes working) eq_refl)
    as (st1 & st2 & args & H1 & H2 & _ & H4 & _).
  exists st1, st2, args. repeat split; assumption.
Defined.

Lemma removable_upload_is_removed_witness :
  exists st',
    WebApi.generate_image_background
      working waiting_upload 0%nat "key" "gemini-2.5-flash-image-preview"
      "a cat" (Some "uploads/in.png") = (st', None) /\
    path_exists (fs (WebApi.world st')) "uploads/in.png" = false.
Proof.
  exact (removable_upload_is_removed
           working waiting_upload 0%nat "key" "gemini-2.5-flash-image-preview"
           "a cat" "uploads/in.png" eq_refl
           (one_key_is_unique "uploads/in.png" [x89]) eq_refl).
Defined.

Lemma sweep_keeps_unfinished_task_witness :
  dict_get (WebApi.active_tasks (one_task "generating")) "t1" = Some 0%nat /\
  WebApi.cleanup_old_tasks (one_task "generating") (of_int 7200)
  = Ok (one_task "generating").
Proof.
  assert (H : WebApi.cleanup_old_tasks (one_task "generating") (of_int 7200)
              = Ok (one_task "generating")) by reflexivity.
  split; [|exact H].
  exact (proj1 (sweep_keeps_unfinished_task
                  (one_task "generating") (one_task "generating") (of_int 7200)
                  "t1" 0%nat _ (one_key_is_unique "t1" 0%nat)
                  eq_refl eq_refl eq_refl eq_refl H)).
Defined.

Lemma first_sweep_stamps_finished_task_witness :
  WebApi.cleanup_old_tasks (one_task "completed") (of_int 7200)
  = Ok (stamped_task (of_int 7200)) /\
  WebApi.deref (stamped_task (of_int 7200)) 0%nat
  = Some (WebApi.set_finished_at
            (WebApi.set_status (WebApi.GenerationTask__init__ "t1") "completed")
            (of_int 7200)).
Proof.
  assert (H : WebApi.cleanup_old_tasks (one_task "completed") (of_int 7200)
              = Ok (stamped_task (of_int 7200))) by reflexivity.
  split; [exact H|].
  exact (proj2 (first_sweep_stamps_finished_task
                  (one_task "completed") (stamped_task (of_int 7200)) (of_int 7200)
                  "t1" 0%nat _ (one_key_is_unique "t1" 0%nat)
                  eq_refl eq_refl eq_refl eq_refl eq_refl H)).
Defined.

Lemma stale_finished_task_is_evicted_witness :
  fltb (of_int 600) (fsub (of_int 7801) (of_int 7200)) = true /\
  exists st',
    WebApi.cleanup_old_tasks (stamped_task (of_int 7200)) (of_int 7801) = Ok st' /\
    dict_get (WebApi.active_tasks st') "t1" = None.
Proof.
  split; [reflexivity|].
  exact (stale_finished_task_is_evicted
           (stamped_task (of_int 7200)) (of_int 7801) (of_int 7200)
           "t1" 0%nat _ (one_key_is_unique "t1" 0%nat)
           eq_refl eq_refl eq_refl eq_refl eq_refl eq_refl).
Defined.

Lemma empty_prompt_costs_the_image_price_witness :
  exists without_image with_image : CostBreakdown,
    calculate_cost "gemini-2.5-flash-image-preview" "" false = Ok without_image /\
    calculate_cost "gemini-2.5-flash-image-preview" "" true = Ok with_image /\
    input_chars without_image = 0%nat /\
    input_text_cost without_image = fzero /\
    total_cost without_image = decimal 2734375 9 /\
    total_cost with_image = fmul (of_int 2) (decimal 2734375 9).
Proof.
  exact (empty_prompt_costs_the_image_price
           "gemini-2.5-flash-image-preview" _ eq_refl).
Defined.

End FurtherExamples.

Section CaseExamples.
Import Gen Scenario Stated Further Cases.

Lemma handler_refuses_missing_key_or_prompt_witness :
  WebApi.generate_image
    working fresh_process
    {| WebApi.is_json := true; WebApi.json := [("prompt", "a cat")];
       WebApi.form := []; WebApi.files := [] |}
  = (WebApi.Failure 400 "API key is required", fresh_process, None) /\
  WebApi.generate_image
    working fresh_process
    {| WebApi.is_json := true; WebApi.json := [("api_key", "key"); ("prompt", "")];
       WebApi.form := []; WebApi.files := [] |}
  = (WebApi.Failure 400 "Prompt is required", fresh_process, None).
Proof.
  split.
  - exact (proj1 (handler_refuses_missing_key_or_prompt
                    working fresh_process
                    {| WebApi.is_json := true; WebApi.json := [("prompt", "a cat")];
                       WebApi.form := []; WebApi.files := [] |})
                 eq_refl).
  - exact (proj1 (proj2 (handler_refuses_missing_key_or_prompt
                           working fresh_process
                           {| WebApi.is_json := true;
                              WebApi.json := [("api_key", "key"); ("prompt", "")];
                              WebApi.form := []; WebApi.files := [] |}))
                 eq_refl eq_refl).
Defined.

Lemma allowed_file_decided_by_last_extension_witness :
  WebApi.allowed_file "holiday.2024.JPeG" = true /\
  WebApi.allowed_file "photo.png.exe" = false /\
  WebApi.allowed_file "png" = false.
Proof.
  split; [|split].
  - exact (proj1 (allowed_file_decided_by_last_extension "holiday.2024" "JPeG" "")
                 eq_refl).
  - exact (proj1 (allowed_file_decided_by_last_extension "photo.png" "exe" "")
                 eq_refl).
  - exact (proj2 (allowed_file_decided_by_last_extension "" "" "png") eq_refl).
Defined.


End CaseExamples.
